(** * Normalisation and equality of watched Kubernetes objects

    A shallow embedding of Cilium's [pkg/k8s] conversion and comparison
    helpers ([ObjTo*], [Equal*], [ConvertTo*]) and the properties the
    design document states about them.

    Conventions of the embedding.
    - A Go slice is [option (list A)]: [None] is the nil slice, [Some []] an
      allocated slice of length zero.
    - A [map[string]string] is a reference into a store of maps; [None] is the
      nil map.  Reads go through the store, [delete] and assignment update it.
    - Objects this package writes through a pointer (the raw Cilium policies,
      nodes and namespaces) live in a heap and are named by a location; a
      pointer to an object the package only reads is modelled by its pointee,
      [None] being the nil pointer.
    - A result of type [option _] is [None] exactly where the Go code would
      stop with a run-time panic (nil dereference, index out of range). *)

From stdpp Require Import base option list strings gmap fin_maps.
From Stdlib Require Import ZArith.

Open Scope string_scope.

(** ** Go values *)

Module Go.

Abbreviation loc := positive (only parsing).

(** A slice: nil or a backing sequence. *)
Abbreviation slice A := (option (list A)) (only parsing).

Definition elems {A} (s : slice A) : list A := default [] s.
Definition len {A} (s : slice A) : nat := length (elems s).
Definition isNil {A} (s : option A) : bool :=
  match s with None => true | Some _ => false end.

(** A pointer to an object that is never written through. *)
Abbreviation ptr A := (option A) (only parsing).

(** The contents of a string map as seen by a reader; [None] is nil. *)
Abbreviation strmap := (option (gmap string string)) (only parsing).

(** The value stored under [k], if any; a nil map stores nothing. *)
Definition get (m : strmap) (k : string) : option string := m ≫= (.!! k).

(** [m[k]]: the zero value (the empty string) when [k] is absent or [m]
    is nil. *)
Definition index (m : strmap) (k : string) : string :=
  default EmptyString (get m k).

(** [v, ok := m[k]]. *)
Definition index2 (m : strmap) (k : string) : string * bool :=
  match get m k with
  | Some v => (v, true)
  | None => (EmptyString, false)
  end.

(** The entries of a map; a nil map has none. *)
Definition entries (m : strmap) : gmap string string := default ∅ m.

(** A reference to a map object, and the store of map objects. *)
Abbreviation mapref := (option loc) (only parsing).
Abbreviation mapstore := (gmap loc (gmap string string)) (only parsing).

(** What a reader sees behind a reference. *)
Definition view (σ : mapstore) (r : mapref) : strmap := r ≫= (σ !!.).

(** [delete(m, k)]: no effect on a nil map. *)
Definition mapDelete (r : mapref) (k : string) (σ : mapstore) : mapstore :=
  match r with
  | Some l => alter (delete k) l σ
  | None => σ
  end.

(** [m[k] = v] for a map known to be non-nil. *)
Definition mapAssign (l : loc) (k v : string) (σ : mapstore) : mapstore :=
  alter (insert k v) l σ.

(** The loop [for _, x := range xs { if !body(x) { return false } };
    return true]. *)
Fixpoint rangeEach {A} (body : A → bool) (xs : list A) : bool :=
  match xs with
  | [] => true
  | x :: xs' => if body x then rangeEach body xs' else false
  end.

(** The loop [for i, x := range xs { if !body(x, ys[i]) { return false } };
    return true].  [ys[i]] past the end of [ys] is a run-time panic, and so
    is a panic of the body. *)
Fixpoint rangeAll {A B} (body : A → B → option bool) (xs : list A)
  (ys : list B) : option bool :=
  match xs with
  | [] => Some true
  | x :: xs' =>
      match ys with
      | [] => None
      | y :: ys' =>
          match body x y with
          | None => None
          | Some true => rangeAll body xs' ys'
          | Some false => Some false
          end
      end
  end.

(** [reflect.DeepEqual] on values without functions or floating point
    numbers: structural equality, pointers followed, a nil slice or map
    different from an empty one. *)
Definition DeepEqual {A} `{EqDecision A} (x y : A) : bool :=
  bool_decide (x = y).

End Go.

Import Go.

(** ** Kubernetes API machinery ([k8s.io/apimachinery], [k8s.io/api]) *)

Record TypeMeta := mkTypeMeta { Kind : string; APIVersion : string }.

(** The fields of [metav1.ObjectMeta] this package reads. *)
Record ObjectMeta := mkObjectMeta {
  Name : string;
  Namespace : string;
  Labels : mapref;
  Annotations : mapref;
}.

Definition zeroTypeMeta : TypeMeta := mkTypeMeta EmptyString EmptyString.
Definition zeroObjectMeta : ObjectMeta :=
  mkObjectMeta EmptyString EmptyString None None.

(** [metav1.Time] wraps [time.Time]: an instant and the location it is
    displayed in. *)
Record Time := mkTime { instant : Z; location : string }.

(** [time.Time.Equal]: same instant, whatever the locations. *)
Definition Time_Equal (t u : Time) : bool := (instant t =? instant u)%Z.

(** [Equal] of [metav1.Time], on pointers: it accepts nil receivers and
    arguments. *)
Definition metav1_Time_Equal (t u : ptr Time) : bool :=
  match t, u with
  | None, None => true
  | Some t', Some u' => Time_Equal t' u'
  | _, _ => false
  end.

(** [v1.Taint]. *)
Record Taint := mkTaint {
  Key : string;
  Value : string;
  Effect : string;
  TimeAdded : ptr Time;
}.

(** [MatchTaint] of [v1.Taint]: same key and same effect. *)
Definition MatchTaint (t taintToMatch : Taint) : bool :=
  bool_decide (Key t = Key taintToMatch) &&
  bool_decide (Effect t = Effect taintToMatch).

(** [v1.NodeAddress]. *)
Record NodeAddress := mkNodeAddress { Type_ : string; Address : string }.

(** [v1.LastAppliedConfigAnnotation]. *)
Definition LastAppliedConfigAnnotation : string :=
  "kubectl.kubernetes.io/last-applied-configuration".

(** ** Declarations used by the package and defined elsewhere

    The bodies of the specs, subsets, rules and statuses are opaque to this
    package: it copies them and compares them with [reflect.DeepEqual].
    [ServiceID] and [ServiceInfo] are what the service parser returns (a
    [k8s.ServiceID] and the pointee of a [*k8s.Service]).  The annotation
    names come from [pkg/annotation]. *)

Class Payloads := {
  NetworkPolicySpec : Type;
  NetworkPolicySpec_eq_dec :: EqDecision NetworkPolicySpec;
  ServiceSpec : Type;
  ServiceStatus : Type;
  EndpointSubset : Type;
  EndpointSubset_eq_dec :: EqDecision EndpointSubset;
  SliceEndpoint : Type;
  SliceEndpoint_eq_dec :: EqDecision SliceEndpoint;
  EndpointPort : Type;
  EndpointPort_eq_dec :: EqDecision EndpointPort;
  Rule : Type;
  Rule_eq_dec :: EqDecision Rule;
  CiliumNetworkPolicyStatus : Type;
  zeroStatus : CiliumNetworkPolicyStatus;
  CiliumNodeBody : Type;
  CiliumEndpointBody : Type;
  (* pkg/k8s service parsing, pkg/datapath *)
  ServiceID : Type;
  ServiceID_eq_dec :: EqDecision ServiceID;
  ServiceInfo : Type;
  ServiceInfo_eq_dec :: EqDecision ServiceInfo;
  NodeAddressing : Type;
  (* pkg/annotation *)
  CiliumHostIP : string;
  CiliumHostIPv6 : string;
  V4HealthName : string;
  V6HealthName : string;
  ProxyVisibility : string;
}.


(** ** Objects without opaque parts *)

(** [v1.Node], with the parts of its spec and status the package copies. *)
Record NodeSpec := mkNodeSpec {
  PodCIDR : string;
  PodCIDRs : slice string;
  Taints : slice Taint;
}.

Record NodeStatus := mkNodeStatus { Addresses : slice NodeAddress }.

Record v1_Node := mkV1Node {
  node_TypeMeta : TypeMeta;
  node_ObjectMeta : ObjectMeta;
  node_Spec : NodeSpec;
  node_Status : NodeStatus;
}.

Definition zero_v1_Node : v1_Node :=
  mkV1Node zeroTypeMeta zeroObjectMeta (mkNodeSpec EmptyString None None)
           (mkNodeStatus None).

(** [types.Node]: [TypeMeta] and [ObjectMeta] are embedded. *)
Record types_Node := mkNode {
  tnode_TypeMeta : TypeMeta;
  tnode_ObjectMeta : ObjectMeta;
  StatusAddresses : slice NodeAddress;
  SpecPodCIDR : string;
  SpecPodCIDRs : slice string;
  SpecTaints : slice Taint;
}.

(** [v1.Namespace]. *)
Record v1_Namespace := mkV1Namespace {
  ns_TypeMeta : TypeMeta;
  ns_ObjectMeta : ObjectMeta;
  ns_Finalizers : slice string;
  ns_Phase : string;
}.

Definition zero_v1_Namespace : v1_Namespace :=
  mkV1Namespace zeroTypeMeta zeroObjectMeta None EmptyString.

(** [types.Namespace]. *)
Record types_Namespace := mkNamespace {
  tns_TypeMeta : TypeMeta;
  tns_ObjectMeta : ObjectMeta;
}.

(** Modelled from the spec: [slim_corev1.Pod] and the types it is made of,
    whose declarations are not among the sources.  The fields are the ones
    the comparison functions read; [Env] stands for the environment
    variables of a container, which the design document lists among the pod
    fields that are not compared. *)
Record VolumeMount := mkVolumeMount { MountPath : string }.

Record EnvVar := mkEnvVar { env_Name : string; env_Value : string }.

Record Container := mkContainer {
  c_Name : string;
  c_Image : string;
  c_Env : slice EnvVar;
  c_VolumeMounts : slice VolumeMount;
}.

Record PodIP := mkPodIP { IP : string }.

Record PodSpec := mkPodSpec {
  Containers : slice Container;
  ServiceAccountName : string;
  HostNetwork : bool;
}.

Record PodStatus := mkPodStatus {
  HostIP : string;
  status_PodIP : string;
  PodIPs : slice PodIP;
}.

Record Pod := mkPod {
  pod_ObjectMeta : ObjectMeta;
  pod_Spec : PodSpec;
  pod_Status : PodStatus;
}.

#[global] Instance PodIP_eq_dec : EqDecision PodIP.
Proof. solve_decision. Defined.

(** ** Objects with opaque parts, the heap and dynamically typed values *)

Section Model.
Context `{Payloads}.

(** [networkingv1.NetworkPolicy]. *)
Record networkingv1_NetworkPolicy := mkK8sNetworkPolicy {
  knp_TypeMeta : TypeMeta;
  knp_ObjectMeta : ObjectMeta;
  knp_Spec : NetworkPolicySpec;
}.

(** [types.NetworkPolicy] embeds a pointer to the Kubernetes object. *)
Record types_NetworkPolicy := mkNetworkPolicy {
  NetworkPolicy : ptr networkingv1_NetworkPolicy;
}.

(** [v1.Service] and [types.Service]. *)
Record v1_Service := mkK8sService {
  ksvc_TypeMeta : TypeMeta;
  ksvc_ObjectMeta : ObjectMeta;
  ksvc_Spec : ServiceSpec;
  ksvc_Status : ServiceStatus;
}.

Record types_Service := mkService { Service : ptr v1_Service }.

(** [v1.Endpoints] and [types.Endpoints]. *)
Record v1_Endpoints := mkK8sEndpoints {
  kep_TypeMeta : TypeMeta;
  kep_ObjectMeta : ObjectMeta;
  Subsets : slice EndpointSubset;
}.

Record types_Endpoints := mkEndpoints { Endpoints : ptr v1_Endpoints }.

(** [v1beta1.EndpointSlice] and [types.EndpointSlice]. *)
Record v1beta1_EndpointSlice := mkK8sEndpointSlice {
  kes_TypeMeta : TypeMeta;
  kes_ObjectMeta : ObjectMeta;
  AddressType : string;
  es_Endpoints : slice SliceEndpoint;
  es_Ports : slice EndpointPort;
}.

Record types_EndpointSlice := mkEndpointSlice {
  EndpointSlice : ptr v1beta1_EndpointSlice;
}.

(** [cilium_v2.CiliumNetworkPolicy]. *)
Record CiliumNetworkPolicy := mkCNP {
  cnp_TypeMeta : TypeMeta;
  cnp_ObjectMeta : ObjectMeta;
  cnp_Spec : ptr Rule;
  cnp_Specs : slice (ptr Rule);
  cnp_Status : CiliumNetworkPolicyStatus;
}.

Definition zeroCiliumNetworkPolicy : CiliumNetworkPolicy :=
  mkCNP zeroTypeMeta zeroObjectMeta None None zeroStatus.

(** [cilium_v2.CiliumClusterwideNetworkPolicy]: an embedded pointer to a
    policy, and a status of its own. *)
Record CiliumClusterwideNetworkPolicy := mkCCNP {
  ccnp_CiliumNetworkPolicy : option loc;
  ccnp_Status : CiliumNetworkPolicyStatus;
}.

Definition zeroCiliumClusterwideNetworkPolicy
  : CiliumClusterwideNetworkPolicy := mkCCNP None zeroStatus.

(** [types.SlimCNP] embeds a pointer to a policy, which it may share with
    the object it was made from. *)
Record SlimCNP := mkSlimCNP { slim_CiliumNetworkPolicy : option loc }.

(** The heap: the map objects and the objects written through pointers. *)
Record heap := mkHeap {
  maps : gmap loc (gmap string string);
  cnps : gmap loc CiliumNetworkPolicy;
  ccnps : gmap loc CiliumClusterwideNetworkPolicy;
  nodes : gmap loc v1_Node;
  namespaces : gmap loc v1_Namespace;
}.

Definition set_maps (σ : gmap loc (gmap string string)) (h : heap) : heap :=
  mkHeap σ (cnps h) (ccnps h) (nodes h) (namespaces h).
Definition set_cnps (m : gmap loc CiliumNetworkPolicy) (h : heap) : heap :=
  mkHeap (maps h) m (ccnps h) (nodes h) (namespaces h).
Definition set_ccnps (m : gmap loc CiliumClusterwideNetworkPolicy) (h : heap)
  : heap := mkHeap (maps h) (cnps h) m (nodes h) (namespaces h).
Definition set_nodes (m : gmap loc v1_Node) (h : heap) : heap :=
  mkHeap (maps h) (cnps h) (ccnps h) m (namespaces h).
Definition set_namespaces (m : gmap loc v1_Namespace) (h : heap) : heap :=
  mkHeap (maps h) (cnps h) (ccnps h) (nodes h) m.

(** [&cilium_v2.CiliumNetworkPolicy{...}]: a location not in use. *)
Definition newCNP (c : CiliumNetworkPolicy) (h : heap) : loc * heap :=
  let l := fresh (dom (cnps h)) in (l, set_cnps (<[l := c]> (cnps h)) h).

(** A value of type [interface{}]: nil, or a dynamic type and a value of
    it.  A pointer to a freshly built slim object is modelled by that
    object. *)
Inductive obj :=
| Nil
| Raw_NetworkPolicy (p : ptr networkingv1_NetworkPolicy)
| Raw_Service (p : ptr v1_Service)
| Raw_Endpoints (p : ptr v1_Endpoints)
| Raw_EndpointSlice (p : ptr v1beta1_EndpointSlice)
| Raw_CNP (p : option loc)
| Raw_CCNP (p : option loc)
| Raw_Node (p : option loc)
| Raw_Namespace (p : option loc)
| Slim_NetworkPolicy (p : ptr types_NetworkPolicy)
| Slim_Service (p : ptr types_Service)
| Slim_Endpoints (p : ptr types_Endpoints)
| Slim_EndpointSlice (p : ptr types_EndpointSlice)
| Slim_CNP (p : ptr SlimCNP)
| Slim_Pod (p : ptr Pod)
| Slim_Node (p : ptr types_Node)
| Slim_Namespace (p : ptr types_Namespace)
| Cilium_Node (p : ptr CiliumNodeBody)
| Slim_CiliumEndpoint (p : ptr CiliumEndpointBody)
| DeletedFinalStateUnknown (key : string) (payload : obj)
| Other (description : string).

(** ** Logging *)

Inductive Level := WarnLevel.

(** One log line: its level, the object whose representation is attached
    under [logfields.Object], and the message. *)
Record Entry := mkEntry { level : Level; object : obj; message : string }.

Definition Warn (o : obj) (msg : string) : list Entry :=
  [mkEntry WarnLevel o msg].

(** ** Casts of watched objects ([ObjTo*])

    Each helper returns its pointer result and the lines it logged. *)

Definition ObjToV1NetworkPolicy (o : obj)
  : ptr types_NetworkPolicy * list Entry :=
  match o with
  | Slim_NetworkPolicy k8sNP => (k8sNP, [])
  | _ => (None, Warn o "Ignoring invalid k8s v1 NetworkPolicy")
  end.

Definition ObjToV1Services (o : obj) : ptr types_Service * list Entry :=
  match o with
  | Slim_Service svc => (svc, [])
  | _ => (None, Warn o "Ignoring invalid k8s v1 Service")
  end.

Definition ObjToV1Endpoints (o : obj) : ptr types_Endpoints * list Entry :=
  match o with
  | Slim_Endpoints ep => (ep, [])
  | _ => (None, Warn o "Ignoring invalid k8s v1 Endpoints")
  end.

Definition ObjToV1EndpointSlice (o : obj)
  : ptr types_EndpointSlice * list Entry :=
  match o with
  | Slim_EndpointSlice ep => (ep, [])
  | _ => (None, Warn o "Ignoring invalid k8s v1 EndpointSlice")
  end.

Definition ObjToSlimCNP (o : obj) : ptr SlimCNP * list Entry :=
  match o with
  | Slim_CNP cnp => (cnp, [])
  | _ => (None, Warn o "Ignoring invalid k8s v2 CiliumNetworkPolicy")
  end.

Definition ObjTov1Pod (o : obj) : ptr Pod * list Entry :=
  match o with
  | Slim_Pod pod => (pod, [])
  | _ => (None, Warn o "Ignoring invalid k8s v1 Pod")
  end.

Definition ObjToV1Node (o : obj) : ptr types_Node * list Entry :=
  match o with
  | Slim_Node node => (node, [])
  | _ => (None, Warn o "Ignoring invalid k8s v1 Node")
  end.

Definition ObjToV1Namespace (o : obj) : ptr types_Namespace * list Entry :=
  match o with
  | Slim_Namespace ns => (ns, [])
  | _ => (None, Warn o "Ignoring invalid k8s v1 Namespace")
  end.

Definition ObjToCiliumNode (o : obj) : ptr CiliumNodeBody * list Entry :=
  match o with
  | Cilium_Node cn => (cn, [])
  | _ => (None, Warn o "Ignoring invalid CiliumNode")
  end.

Definition ObjToCiliumEndpoint (o : obj)
  : ptr CiliumEndpointBody * list Entry :=
  match o with
  | Slim_CiliumEndpoint ce => (ce, [])
  | _ => (None, Warn o "Ignoring invalid CiliumEndpoint")
  end.

(** ** Comparisons ([Equal*]) *)

(** Modelled from the spec: [comparator.MapStringEquals], whose package is
    not among the sources.  The design document has it decide whether two
    maps match exactly: the same keys under the same values.  As for the
    slices of [EqualPodIPs], if one map is nil the other must be nil too: a
    nil map and an allocated map do not match, not even when the allocated
    one is empty. *)
Definition MapStringEquals (m1 m2 : strmap) : bool :=
  bool_decide (isNil m1 = isNil m2) && bool_decide (entries m1 = entries m2).

(** The service parser of [pkg/k8s], not among the sources: it derives a
    service identifier and a service description from a service and the
    node addressing, reading the heap. *)
Variable ParseService :
  heap → types_Service → NodeAddressing → ServiceID * ptr ServiceInfo.

(** Modelled from the spec: [DeepEquals] of [k8s.Service], the dedicated
    deep-equality routine of the service parser: the two descriptions are
    equal. *)
Definition Service_DeepEquals (s o : ptr ServiceInfo) : bool :=
  bool_decide (s = o).

Definition EqualV1NetworkPolicy (np1 np2 : types_NetworkPolicy)
  : option bool :=
  k1 ← NetworkPolicy np1;
  k2 ← NetworkPolicy np2;
  Some (bool_decide (Name (knp_ObjectMeta k1) = Name (knp_ObjectMeta k2)) &&
        bool_decide (Namespace (knp_ObjectMeta k1)
                     = Namespace (knp_ObjectMeta k2)) &&
        DeepEqual (knp_Spec k1) (knp_Spec k2)).

Definition EqualV1Services (h : heap) (k8sSVC1 k8sSVC2 : types_Service)
  (nodeAddressing : NodeAddressing) : option bool :=
  s1 ← Service k8sSVC1;
  s2 ← Service k8sSVC2;
  if negb (MapStringEquals
             (view (maps h) (Annotations (ksvc_ObjectMeta s1)))
             (view (maps h) (Annotations (ksvc_ObjectMeta s2))))
  then Some false
  else
    let '(svcID1, svc1) := ParseService h k8sSVC1 nodeAddressing in
    let '(svcID2, svc2) := ParseService h k8sSVC2 nodeAddressing in
    if negb (bool_decide (svcID1 = svcID2)) then Some false
    else Some (Service_DeepEquals svc1 svc2).

Definition EqualV1Endpoints (ep1 ep2 : types_Endpoints) : option bool :=
  e1 ← Endpoints ep1;
  e2 ← Endpoints ep2;
  Some (bool_decide (Name (kep_ObjectMeta e1) = Name (kep_ObjectMeta e2)) &&
        bool_decide (Namespace (kep_ObjectMeta e1)
                     = Namespace (kep_ObjectMeta e2)) &&
        DeepEqual (Subsets e1) (Subsets e2)).

Definition EqualV1EndpointSlice (ep1 ep2 : types_EndpointSlice)
  : option bool :=
  e1 ← EndpointSlice ep1;
  e2 ← EndpointSlice ep2;
  Some (bool_decide (Name (kes_ObjectMeta e1) = Name (kes_ObjectMeta e2)) &&
        bool_decide (Namespace (kes_ObjectMeta e1)
                     = Namespace (kes_ObjectMeta e2)) &&
        DeepEqual (es_Endpoints e1) (es_Endpoints e2) &&
        DeepEqual (es_Ports e1) (es_Ports e2)).

(** The deferred function of [EqualV2CNP], for one of the two policies:
    [if ok && annotations != nil { annotations[key] = value }]. *)
Definition restoreLastApplied (annotations : mapref) (saved : string * bool)
  (σ : gmap loc (gmap string string)) : gmap loc (gmap string string) :=
  match snd saved, annotations with
  | true, Some l => mapAssign l LastAppliedConfigAnnotation (fst saved) σ
  | _, _ => σ
  end.

(** [EqualV2CNP] returns its verdict and the heap it leaves.  The two
    annotation maps are read first, then emptied of the last-applied
    configuration, compared, and refilled on the way out; when the names
    differ the function returns before any of this. *)
Definition EqualV2CNP (cnp1 cnp2 : SlimCNP) (h : heap)
  : option (bool * heap) :=
  l1 ← slim_CiliumNetworkPolicy cnp1;
  c1 ← cnps h !! l1;
  l2 ← slim_CiliumNetworkPolicy cnp2;
  c2 ← cnps h !! l2;
  if negb (bool_decide (Name (cnp_ObjectMeta c1) = Name (cnp_ObjectMeta c2)) &&
           bool_decide (Namespace (cnp_ObjectMeta c1)
                        = Namespace (cnp_ObjectMeta c2)))
  then Some (false, h)
  else
    let annotations1 := Annotations (cnp_ObjectMeta c1) in
    let annotations2 := Annotations (cnp_ObjectMeta c2) in
    let saved1 := index2 (view (maps h) annotations1)
                         LastAppliedConfigAnnotation in
    let saved2 := index2 (view (maps h) annotations2)
                         LastAppliedConfigAnnotation in
    let σ1 := mapDelete annotations1 LastAppliedConfigAnnotation (maps h) in
    let σ2 := mapDelete annotations2 LastAppliedConfigAnnotation σ1 in
    let result :=
      MapStringEquals (view σ2 annotations1) (view σ2 annotations2) &&
      DeepEqual (cnp_Spec c1) (cnp_Spec c2) &&
      DeepEqual (cnp_Specs c1) (cnp_Specs c2) in
    let σ3 := restoreLastApplied annotations1 saved1 σ2 in
    let σ4 := restoreLastApplied annotations2 saved2 σ3 in
    Some (result, set_maps σ4 h).

(** [AnnotationsEqual] returns whether the annotation with any key in
    [relevantAnnotations] is equal in [anno1] and [anno2]. *)
Definition AnnotationsEqual (relevantAnnotations : slice string)
  (anno1 anno2 : strmap) : bool :=
  rangeEach (λ an, bool_decide (index anno1 an = index anno2 an))
            (elems relevantAnnotations).

Definition EqualV1PodContainers (c1 c2 : Container) : option bool :=
  if negb (bool_decide (c_Name c1 = c_Name c2)) ||
     negb (bool_decide (c_Image c1 = c_Image c2))
  then Some false
  else if negb (len (c_VolumeMounts c1) =? len (c_VolumeMounts c2))%nat
  then Some false
  else rangeAll (λ vlmMount1 vlmMount2,
                   Some (bool_decide (MountPath vlmMount1
                                      = MountPath vlmMount2)))
                (elems (c_VolumeMounts c1)) (elems (c_VolumeMounts c2)).

(** [EqualPodIPs] returns true if both slices are equal. *)
Definition EqualPodIPs (a b : slice PodIP) : option bool :=
  (* If one is nil, the other must also be nil. *)
  if negb (bool_decide (isNil a = isNil b)) then Some false
  else if negb (len a =? len b)%nat then Some false
  else rangeAll (λ x y, Some (bool_decide (x = y))) (elems a) (elems b).

Definition EqualV1Pod (h : heap) (pod1 pod2 : Pod) : option bool :=
  if negb (bool_decide (status_PodIP (pod_Status pod1)
                        = status_PodIP (pod_Status pod2))) ||
     negb (bool_decide (HostIP (pod_Status pod1)
                        = HostIP (pod_Status pod2))) ||
     negb (bool_decide (ServiceAccountName (pod_Spec pod1)
                        = ServiceAccountName (pod_Spec pod2))) ||
     negb (bool_decide (HostNetwork (pod_Spec pod1)
                        = HostNetwork (pod_Spec pod2)))
  then Some false
  else
    ips ← EqualPodIPs (PodIPs (pod_Status pod1)) (PodIPs (pod_Status pod2));
    if negb ips then Some false
    else if negb (AnnotationsEqual (Some [ProxyVisibility])
              (view (maps h) (Annotations (pod_ObjectMeta pod1)))
              (view (maps h) (Annotations (pod_ObjectMeta pod2))))
    then Some false
    else
      let oldPodLabels := view (maps h) (Labels (pod_ObjectMeta pod1)) in
      let newPodLabels := view (maps h) (Labels (pod_ObjectMeta pod2)) in
      if negb (MapStringEquals oldPodLabels newPodLabels) then Some false
      else if negb (len (Containers (pod_Spec pod1))
                    =? len (Containers (pod_Spec pod2)))%nat
      then Some false
      else rangeAll EqualV1PodContainers
                    (elems (Containers (pod_Spec pod1)))
                    (elems (Containers (pod_Spec pod2))).

(** The body of the taint loop of [EqualV1Node]. *)
Definition equalTaint (taint2 taint1 : Taint) : option bool :=
  if negb (MatchTaint taint1 taint2) then Some false
  else if negb (bool_decide (Value taint1 = Value taint2)) then Some false
  else if negb (metav1_Time_Equal (TimeAdded taint1) (TimeAdded taint2))
  then Some false
  else Some true.

Definition EqualV1Node (h : heap) (node1 node2 : types_Node) : option bool :=
  if negb (bool_decide (Name (tnode_ObjectMeta node1)
                        = Name (tnode_ObjectMeta node2)))
  then Some false
  else
    let anno1 := view (maps h) (Annotations (tnode_ObjectMeta node1)) in
    let anno2 := view (maps h) (Annotations (tnode_ObjectMeta node2)) in
    let annotationsWeCareAbout :=
      [CiliumHostIP; CiliumHostIPv6; V4HealthName; V6HealthName] in
    if negb (rangeEach (λ an, bool_decide (index anno1 an = index anno2 an))
                       annotationsWeCareAbout)
    then Some false
    else if negb (len (SpecTaints node1) =? len (SpecTaints node2))%nat
    then Some false
    else rangeAll equalTaint (elems (SpecTaints node2))
                  (elems (SpecTaints node1)).

Definition EqualV1Namespace (h : heap) (ns1 ns2 : types_Namespace) : bool :=
  (* we only care about namespace labels. *)
  bool_decide (Name (tns_ObjectMeta ns1) = Name (tns_ObjectMeta ns2)) &&
  MapStringEquals (view (maps h) (Labels (tns_ObjectMeta ns1)))
                  (view (maps h) (Labels (tns_ObjectMeta ns2))).

(** ** Conversions ([ConvertTo*])

    A conversion that dereferences or writes takes the heap and returns the
    heap it leaves; one that only wraps a pointer is a function of the
    object alone. *)

Definition ConvertToNetworkPolicy (o : obj) : obj :=
  match o with
  | Raw_NetworkPolicy concreteObj =>
      Slim_NetworkPolicy (Some (mkNetworkPolicy concreteObj))
  | DeletedFinalStateUnknown key payload =>
      match payload with
      | Raw_NetworkPolicy netPol =>
          DeletedFinalStateUnknown key
            (Slim_NetworkPolicy (Some (mkNetworkPolicy netPol)))
      | _ => o
      end
  | _ => o
  end.

Definition ConvertToK8sService (o : obj) : obj :=
  match o with
  | Raw_Service concreteObj => Slim_Service (Some (mkService concreteObj))
  | DeletedFinalStateUnknown key payload =>
      match payload with
      | Raw_Service svc =>
          DeletedFinalStateUnknown key (Slim_Service (Some (mkService svc)))
      | _ => o
      end
  | _ => o
  end.

Definition ConvertToK8sEndpoints (o : obj) : obj :=
  match o with
  | Raw_Endpoints concreteObj =>
      Slim_Endpoints (Some (mkEndpoints concreteObj))
  | DeletedFinalStateUnknown key payload =>
      match payload with
      | Raw_Endpoints eps =>
          DeletedFinalStateUnknown key
            (Slim_Endpoints (Some (mkEndpoints eps)))
      | _ => o
      end
  | _ => o
  end.

Definition ConvertToK8sEndpointSlice (o : obj) : obj :=
  match o with
  | Raw_EndpointSlice concreteObj =>
      Slim_EndpointSlice (Some (mkEndpointSlice concreteObj))
  | DeletedFinalStateUnknown key payload =>
      match payload with
      | Raw_EndpointSlice eps =>
          DeletedFinalStateUnknown key
            (Slim_EndpointSlice (Some (mkEndpointSlice eps)))
      | _ => o
      end
  | _ => o
  end.

(** The statements both branches of [ConvertToCCNPWithStatus] run on the
    cluster-wide policy [cnp]:
    [t := &types.SlimCNP{CiliumNetworkPolicy: cnp.CiliumNetworkPolicy}]
    and [t.Status = cnp.Status], the latter a write to the status field of
    the embedded policy, which [t] shares with [cnp]. *)
Definition slimOfCCNPWithStatus (cnp : option loc) (h : heap)
  : option (SlimCNP * heap) :=
  l ← cnp;
  cc ← ccnps h !! l;
  let t := mkSlimCNP (ccnp_CiliumNetworkPolicy cc) in
  lc ← slim_CiliumNetworkPolicy t;
  c ← cnps h !! lc;
  let c' := mkCNP (cnp_TypeMeta c) (cnp_ObjectMeta c) (cnp_Spec c)
                  (cnp_Specs c) (ccnp_Status cc) in
  Some (t, set_cnps (<[lc := c']> (cnps h)) h).

Definition ConvertToCCNPWithStatus (o : obj) (h : heap)
  : option (obj * heap) :=
  match o with
  | Raw_CCNP concreteObj =>
      '(t, h') ← slimOfCCNPWithStatus concreteObj h;
      Some (Slim_CNP (Some t), h')
  | DeletedFinalStateUnknown key payload =>
      match payload with
      | Raw_CCNP cnp =>
          '(t, h') ← slimOfCCNPWithStatus cnp h;
          Some (DeletedFinalStateUnknown key (Slim_CNP (Some t)), h')
      | _ => Some (o, h)
      end
  | _ => Some (o, h)
  end.

Definition ConvertToCNPWithStatus (o : obj) : obj :=
  match o with
  | Raw_CNP concreteObj => Slim_CNP (Some (mkSlimCNP concreteObj))
  | DeletedFinalStateUnknown key payload =>
      match payload with
      | Raw_CNP cnp =>
          DeletedFinalStateUnknown key (Slim_CNP (Some (mkSlimCNP cnp)))
      | _ => o
      end
  | _ => o
  end.

(** The statements both branches of [ConvertToCCNP] run on the cluster-wide
    policy [cnp]: a new policy is built from the type and object metadata,
    the spec and the specs reached through the embedded pointer, then
    [*cnp = cilium_v2.CiliumClusterwideNetworkPolicy{}]. *)
Definition slimOfCCNP (cnp : option loc) (h : heap)
  : option (SlimCNP * heap) :=
  l ← cnp;
  cc ← ccnps h !! l;
  lc ← ccnp_CiliumNetworkPolicy cc;
  c ← cnps h !! lc;
  let '(n, h1) := newCNP (mkCNP (cnp_TypeMeta c) (cnp_ObjectMeta c)
                            (cnp_Spec c) (cnp_Specs c) zeroStatus) h in
  Some (mkSlimCNP (Some n),
        set_ccnps (<[l := zeroCiliumClusterwideNetworkPolicy]> (ccnps h1)) h1).

(** WARNING calling this function will set all fields of the given CNP as
    empty. *)
Definition ConvertToCCNP (o : obj) (h : heap) : option (obj * heap) :=
  match o with
  | Raw_CCNP concreteObj =>
      '(cnp, h') ← slimOfCCNP concreteObj h;
      Some (Slim_CNP (Some cnp), h')
  | DeletedFinalStateUnknown key payload =>
      match payload with
      | Raw_CCNP cnp =>
          '(t, h') ← slimOfCCNP cnp h;
          Some (DeletedFinalStateUnknown key (Slim_CNP (Some t)), h')
      | _ => Some (o, h)
      end
  | _ => Some (o, h)
  end.

(** The same for a policy: the copy, then
    [*cnp = cilium_v2.CiliumNetworkPolicy{}]. *)
Definition slimOfCNP (cnp : option loc) (h : heap)
  : option (SlimCNP * heap) :=
  l ← cnp;
  c ← cnps h !! l;
  let '(n, h1) := newCNP (mkCNP (cnp_TypeMeta c) (cnp_ObjectMeta c)
                            (cnp_Spec c) (cnp_Specs c) zeroStatus) h in
  Some (mkSlimCNP (Some n),
        set_cnps (<[l := zeroCiliumNetworkPolicy]> (cnps h1)) h1).

(** WARNING calling this function will set all fields of the given CNP as
    empty. *)
Definition ConvertToCNP (o : obj) (h : heap) : option (obj * heap) :=
  match o with
  | Raw_CNP concreteObj =>
      '(cnp, h') ← slimOfCNP concreteObj h;
      Some (Slim_CNP (Some cnp), h')
  | DeletedFinalStateUnknown key payload =>
      match payload with
      | Raw_CNP cnp =>
          '(t, h') ← slimOfCNP cnp h;
          Some (DeletedFinalStateUnknown key (Slim_CNP (Some t)), h')
      | _ => Some (o, h)
      end
  | _ => Some (o, h)
  end.

(** The copy out of a node, then [*node = v1.Node{}]. *)
Definition slimOfNode (node : option loc) (h : heap)
  : option (types_Node * heap) :=
  l ← node;
  n ← nodes h !! l;
  let p := mkNode (node_TypeMeta n) (node_ObjectMeta n)
                  (Addresses (node_Status n)) (PodCIDR (node_Spec n))
                  (PodCIDRs (node_Spec n)) (Taints (node_Spec n)) in
  Some (p, set_nodes (<[l := zero_v1_Node]> (nodes h)) h).

(** WARNING calling this function will set all fields of the given Node as
    empty. *)
Definition ConvertToNode (o : obj) (h : heap) : option (obj * heap) :=
  match o with
  | Raw_Node concreteObj =>
      '(p, h') ← slimOfNode concreteObj h;
      Some (Slim_Node (Some p), h')
  | DeletedFinalStateUnknown key payload =>
      match payload with
      | Raw_Node node =>
          '(p, h') ← slimOfNode node h;
          Some (DeletedFinalStateUnknown key (Slim_Node (Some p)), h')
      | _ => Some (o, h)
      end
  | _ => Some (o, h)
  end.

(** The copy out of a namespace, then [*namespace = v1.Namespace{}]. *)
Definition slimOfNamespace (namespace : option loc) (h : heap)
  : option (types_Namespace * heap) :=
  l ← namespace;
  n ← namespaces h !! l;
  let p := mkNamespace (ns_TypeMeta n) (ns_ObjectMeta n) in
  Some (p, set_namespaces (<[l := zero_v1_Namespace]> (namespaces h)) h).

(** WARNING calling this function will set all fields of the given
    Namespace as empty. *)
Definition ConvertToNamespace (o : obj) (h : heap) : option (obj * heap) :=
  match o with
  | Raw_Namespace concreteObj =>
      '(p, h') ← slimOfNamespace concreteObj h;
      Some (Slim_Namespace (Some p), h')
  | DeletedFinalStateUnknown key payload =>
      match payload with
      | Raw_Namespace namespace =>
          '(p, h') ← slimOfNamespace namespace h;
          Some (DeletedFinalStateUnknown key (Slim_Namespace (Some p)), h')
      | _ => Some (o, h)
      end
  | _ => Some (o, h)
  end.

(** ** The table of kinds *)

(** Modelled from the spec: the KindRegistry of section 4.4, which maps a
    resource kind to its pair of a normaliser and a comparison; the code
    that dispatches on the kind is not among the sources.  The policy with
    status has its single and cluster-wide variants, and the two policy
    conversions that drop the status are listed next to them. *)
Inductive ResourceKind :=
| KNetworkPolicy
| KService
| KEndpoints
| KEndpointSlice
| KCNPWithStatus
| KCCNPWithStatus
| KCNP
| KCCNP
| KPod
| KNode
| KNamespace.

(** Modelled from the spec: [Normalize(kind, rawEvent)].  A pod is left as
    it is (section 4.1). *)
Definition Normalize (k : ResourceKind) (o : obj) (h : heap)
  : option (obj * heap) :=
  match k with
  | KNetworkPolicy => Some (ConvertToNetworkPolicy o, h)
  | KService => Some (ConvertToK8sService o, h)
  | KEndpoints => Some (ConvertToK8sEndpoints o, h)
  | KEndpointSlice => Some (ConvertToK8sEndpointSlice o, h)
  | KCNPWithStatus => Some (ConvertToCNPWithStatus o, h)
  | KCCNPWithStatus => ConvertToCCNPWithStatus o h
  | KCNP => ConvertToCNP o h
  | KCCNP => ConvertToCCNP o h
  | KPod => Some (o, h)
  | KNode => ConvertToNode o h
  | KNamespace => ConvertToNamespace o h
  end.

(** Modelled from the spec: [Equal(kind, prev, next)].  Both objects go
    through the cast helper of the kind, and the comparison of the kind is
    called on the two pointers when neither is nil.  [None] stands for no
    verdict: a cast gave nil, or the comparison stopped on a nil
    dereference. *)
Definition Equal (k : ResourceKind) (nodeAddressing : NodeAddressing)
  (prev next : obj) (h : heap) : option (bool * heap) :=
  match k with
  | KNetworkPolicy =>
      np1 ← fst (ObjToV1NetworkPolicy prev);
      np2 ← fst (ObjToV1NetworkPolicy next);
      b ← EqualV1NetworkPolicy np1 np2; Some (b, h)
  | KService =>
      svc1 ← fst (ObjToV1Services prev);
      svc2 ← fst (ObjToV1Services next);
      b ← EqualV1Services h svc1 svc2 nodeAddressing; Some (b, h)
  | KEndpoints =>
      ep1 ← fst (ObjToV1Endpoints prev);
      ep2 ← fst (ObjToV1Endpoints next);
      b ← EqualV1Endpoints ep1 ep2; Some (b, h)
  | KEndpointSlice =>
      ep1 ← fst (ObjToV1EndpointSlice prev);
      ep2 ← fst (ObjToV1EndpointSlice next);
      b ← EqualV1EndpointSlice ep1 ep2; Some (b, h)
  | KCNPWithStatus | KCCNPWithStatus | KCNP | KCCNP =>
      cnp1 ← fst (ObjToSlimCNP prev);
      cnp2 ← fst (ObjToSlimCNP next);
      EqualV2CNP cnp1 cnp2 h
  | KPod =>
      pod1 ← fst (ObjTov1Pod prev);
      pod2 ← fst (ObjTov1Pod next);
      b ← EqualV1Pod h pod1 pod2; Some (b, h)
  | KNode =>
      node1 ← fst (ObjToV1Node prev);
      node2 ← fst (ObjToV1Node next);
      b ← EqualV1Node h node1 node2; Some (b, h)
  | KNamespace =>
      ns1 ← fst (ObjToV1Namespace prev);
      ns2 ← fst (ObjToV1Namespace next);
      Some (EqualV1Namespace h ns1 ns2, h)
  end.

Definition allocated {A} (m : gmap loc A) (p : option loc) : bool :=
  match p ≫= (m !!.) with Some _ => true | None => false end.

(** A valid raw object of a kind: a non-nil pointer of the type the
    normaliser of the kind expects (for a pod, which is not converted, the
    type its comparison expects), to an object of the heap; for a
    cluster-wide policy the embedded policy is there as well. *)
Definition validRaw (k : ResourceKind) (o : obj) (h : heap) : bool :=
  match k, o with
  | KNetworkPolicy, Raw_NetworkPolicy (Some _) => true
  | KService, Raw_Service (Some _) => true
  | KEndpoints, Raw_Endpoints (Some _) => true
  | KEndpointSlice, Raw_EndpointSlice (Some _) => true
  | (KCNPWithStatus | KCNP), Raw_CNP p => allocated (cnps h) p
  | (KCCNPWithStatus | KCCNP), Raw_CCNP p =>
      match p ≫= (ccnps h !!.) with
      | Some cc => allocated (cnps h) (ccnp_CiliumNetworkPolicy cc)
      | None => false
      end
  | KPod, Slim_Pod (Some _) => true
  | KNode, Raw_Node p => allocated (nodes h) p
  | KNamespace, Raw_Namespace p => allocated (namespaces h) p
  | _, _ => false
  end.

End Model.

(** ** Cilium nodes and endpoints *)

Section CiliumNodes.
Context `{Payloads}.

(** [ConvertToCiliumNode]: there is no slim type for a Cilium node yet,
    and a node is handed on as it is. *)
Definition ConvertToCiliumNode (o : obj) : obj :=
  match o with
  | Cilium_Node concreteObj => Cilium_Node concreteObj
  | DeletedFinalStateUnknown key payload =>
      match payload with
      | Cilium_Node ciliumNode =>
          DeletedFinalStateUnknown key (Cilium_Node ciliumNode)
      | _ => o
      end
  | _ => o
  end.

End CiliumNodes.

(** The parts of the status of a [cilium_v2.CiliumEndpoint] that
    [ConvertToCiliumEndpoint] copies, opaque here, with their zero values:
    the encryption settings, a struct held by value in the status, and the
    identity, the networking status and the named ports. *)
Class EndpointPayloads := {
  EncryptionSpec : Type;
  zeroEncryptionSpec : EncryptionSpec;
  EndpointIdentity : Type;
  zeroEndpointIdentity : EndpointIdentity;
  EndpointNetworking : Type;
  zeroEndpointNetworking : EndpointNetworking;
  NamedPorts : Type;
  zeroNamedPorts : NamedPorts;
}.

Section CiliumEndpoints.
Context `{EndpointPayloads}.

Record EndpointStatus := mkEndpointStatus {
  st_Encryption : EncryptionSpec;
  st_Identity : EndpointIdentity;
  st_Networking : EndpointNetworking;
  st_NamedPorts : NamedPorts;
}.

(** [cilium_v2.CiliumEndpoint]. *)
Record cilium_v2_CiliumEndpoint := mkRawCiliumEndpoint {
  cep_TypeMeta : TypeMeta;
  cep_ObjectMeta : ObjectMeta;
  cep_Status : EndpointStatus;
}.

Definition zero_CiliumEndpoint : cilium_v2_CiliumEndpoint :=
  mkRawCiliumEndpoint zeroTypeMeta zeroObjectMeta
    (mkEndpointStatus zeroEncryptionSpec zeroEndpointIdentity
                      zeroEndpointNetworking zeroNamedPorts).

(** [types.CiliumEndpoint].  [Encryption] is a pointer; the only pointers
    the conversion stores there are addresses of the [Status.Encryption]
    field of an endpoint of the heap, and such an address is modelled by
    the location of that endpoint. *)
Record types_CiliumEndpoint := mkCiliumEndpoint {
  tcep_TypeMeta : TypeMeta;
  tcep_ObjectMeta : ObjectMeta;
  Encryption : option loc;
  Identity : EndpointIdentity;
  Networking : EndpointNetworking;
  tcep_NamedPorts : NamedPorts;
}.

(** What is read through an [Encryption] pointer. *)
Definition readEncryption (σ : gmap loc cilium_v2_CiliumEndpoint)
  (p : option loc) : option EncryptionSpec :=
  l ← p; e ← σ !! l; Some (st_Encryption (cep_Status e)).

(** The values of type [interface{}] that [ConvertToCiliumEndpoint] tells
    apart: a pointer to an endpoint of the API, a deletion wrapper, and
    anything else, among which the slim endpoints. *)
Inductive endpointObj :=
| Raw_CiliumEndpoint (p : option loc)
| Slim_Endpoint (p : ptr types_CiliumEndpoint)
| Deleted_Endpoint (key : string) (payload : endpointObj)
| Other_Endpoint (description : string).

(** The statements both branches of [ConvertToCiliumEndpoint] run on the
    endpoint [ciliumEndpoint]: the slim endpoint is built, with
    [&ciliumEndpoint.Status.Encryption] for its encryption, then
    [*ciliumEndpoint = cilium_v2.CiliumEndpoint{}]. *)
Definition slimOfCiliumEndpoint (ciliumEndpoint : option loc)
  (σ : gmap loc cilium_v2_CiliumEndpoint)
  : option (types_CiliumEndpoint * gmap loc cilium_v2_CiliumEndpoint) :=
  l ← ciliumEndpoint;
  e ← σ !! l;
  let p := mkCiliumEndpoint (cep_TypeMeta e) (cep_ObjectMeta e) (Some l)
             (st_Identity (cep_Status e)) (st_Networking (cep_Status e))
             (st_NamedPorts (cep_Status e)) in
  Some (p, <[l := zero_CiliumEndpoint]> σ).

Definition ConvertToCiliumEndpoint (o : endpointObj)
  (σ : gmap loc cilium_v2_CiliumEndpoint)
  : option (endpointObj * gmap loc cilium_v2_CiliumEndpoint) :=
  match o with
  | Raw_CiliumEndpoint concreteObj =>
      '(p, σ') ← slimOfCiliumEndpoint concreteObj σ;
      Some (Slim_Endpoint (Some p), σ')
  | Deleted_Endpoint key payload =>
      match payload with
      | Raw_CiliumEndpoint ciliumEndpoint =>
          '(p, σ') ← slimOfCiliumEndpoint ciliumEndpoint σ;
          Some (Deleted_Endpoint key (Slim_Endpoint (Some p)), σ')
      | _ => Some (o, σ)
      end
  | _ => Some (o, σ)
  end.

End CiliumEndpoints.

(** ** The client set ([pkg/k8s/slim/k8s/clientset])

    The client libraries are consumed as they are: the constructors of the
    two clients, which return a client or an error and leave the
    configuration they are given alone, the token bucket rate limiter, and
    the test [QPS > 0] on a 32-bit float. *)

Class ClientLibraries := {
  RateLimiter : Type;
  float32 : Type;
  positive_float32 : float32 → bool;
  NewTokenBucketRateLimiter : float32 → Z → RateLimiter;
  ConfigRest : Type;
  kubernetes_Clientset : Type;
  CoreV1Client : Type;
  slim_CoreV1Client : Type;
  RESTInterface : Type;
  ExternalError : Type;
  RESTClient : slim_CoreV1Client → RESTInterface;
  corev1_New : RESTInterface → CoreV1Client;
}.

Section Clientset.
Context `{ClientLibraries}.

(** The fields of [rest.Config] that [NewForConfig] reads or writes, and
    the rest of it. *)
Record Config := mkConfig {
  cfg_RateLimiter : option RateLimiter;
  QPS : float32;
  Burst : Z;
  cfg_rest : ConfigRest;
}.

Inductive error :=
| Errorf (message : string)
| FromLibrary (e : ExternalError).

Variable kubernetes_NewForConfig : Config → kubernetes_Clientset + error.
Variable slim_corev1_NewForConfig : Config → slim_CoreV1Client + error.

(** [Clientset] embeds a pointer to the Kubernetes client set and holds
    the core client of its own. *)
Record Clientset := mkClientset {
  cs_Clientset : ptr kubernetes_Clientset;
  coreV1 : ptr CoreV1Client;
}.

(** [CoreV1] retrieves the [CoreV1Client]. *)
Definition CoreV1 (c : Clientset) : ptr CoreV1Client := coreV1 c.

(** [NewForConfig] creates a new client set for the given config.  The
    result is the pair of a pointer to a client set and an error, [None]
    standing for nil in both; the whole is [None] when [c] is nil, which
    the first statement dereferences. *)
Definition NewForConfig (c : ptr Config)
  : option (ptr Clientset * option error) :=
  configShallowCopy ← c;
  let limited :=
    if isNil (cfg_RateLimiter configShallowCopy) &&
       positive_float32 (QPS configShallowCopy)
    then
      if (Burst configShallowCopy <=? 0)%Z
      then inr (Errorf "burst is required to be greater than 0 when RateLimiter is not set and QPS is set to greater than 0")
      else inl (mkConfig
                  (Some (NewTokenBucketRateLimiter (QPS configShallowCopy)
                           (Burst configShallowCopy)))
                  (QPS configShallowCopy) (Burst configShallowCopy)
                  (cfg_rest configShallowCopy))
    else inl configShallowCopy in
  match limited with
  | inr err => Some (None, Some err)
  | inl configShallowCopy =>
      match kubernetes_NewForConfig configShallowCopy with
      | inr err => Some (None, Some err)
      | inl clientset =>
          (* Wrap coreV1 with our own implementation *)
          match slim_corev1_NewForConfig configShallowCopy with
          | inr err => Some (None, Some err)
          | inl slimCoreV1 =>
              Some (Some (mkClientset (Some clientset)
                            (Some (corev1_New (RESTClient slimCoreV1)))),
                    None)
          end
      end
  end.

End Clientset.

(** ** Vocabulary of the properties *)

(** Two containers that differ at most in their environment variables. *)
Definition sameButEnv (c1 c2 : Container) : Prop :=
  c_Name c1 = c_Name c2 ∧ c_Image c1 = c_Image c2 ∧
  c_VolumeMounts c1 = c_VolumeMounts c2.

(** A pod with its list of pod IPs replaced. *)
Definition withPodIPs (ips : slice PodIP) (pod : Pod) : Pod :=
  mkPod (pod_ObjectMeta pod) (pod_Spec pod)
        (mkPodStatus (HostIP (pod_Status pod))
                     (status_PodIP (pod_Status pod)) ips).

(** A node with its taints replaced. *)
Definition withTaints (taints : slice Taint) (node : types_Node)
  : types_Node :=
  mkNode (tnode_TypeMeta node) (tnode_ObjectMeta node) (StatusAddresses node)
         (SpecPodCIDR node) (SpecPodCIDRs node) taints.

(** ** Sample objects

    Concrete payloads and a small heap, on which the definitions are run:
    two policies that differ in the last-applied configuration and in their
    status, a cluster-wide policy, a node and a namespace. *)

Definition samplePayloads : Payloads := {|
  NetworkPolicySpec := list string;
  ServiceSpec := string;
  ServiceStatus := string;
  EndpointSubset := string;
  SliceEndpoint := string;
  EndpointPort := nat;
  Rule := string;
  CiliumNetworkPolicyStatus := list string;
  zeroStatus := [];
  CiliumNodeBody := string;
  CiliumEndpointBody := string;
  ServiceID := string * string;
  ServiceInfo := string;
  NodeAddressing := unit;
  CiliumHostIP := "io.cilium.network.ipv4-cilium-host";
  CiliumHostIPv6 := "io.cilium.network.ipv6-cilium-host";
  V4HealthName := "io.cilium.network.ipv4-health-ip";
  V6HealthName := "io.cilium.network.ipv6-health-ip";
  ProxyVisibility := "io.cilium.proxy-visibility";
|}.

Section Samples.
#[local] Existing Instance samplePayloads.

Definition sampleParseService (h : heap) (svc : types_Service) (_ : unit)
  : (string * string) * option string :=
  match Service svc with
  | Some k => ((Namespace (ksvc_ObjectMeta k), Name (ksvc_ObjectMeta k)),
               Some (ksvc_Spec k))
  | None => ((EmptyString, EmptyString), None)
  end.

Definition sampleOtherAnnotations : gmap string string :=
  {["team" := "netsec"]}.

Definition sampleAnnotations1 : gmap string string :=
  <[LastAppliedConfigAnnotation := "{spec: v1}"]> sampleOtherAnnotations.

Definition sampleAnnotations2 : gmap string string :=
  <[LastAppliedConfigAnnotation := "{spec: v2}"]> sampleOtherAnnotations.

Definition sampleCNP1 : CiliumNetworkPolicy :=
  mkCNP (mkTypeMeta "CiliumNetworkPolicy" "cilium.io/v2")
        (mkObjectMeta "allow-dns" "default" None (Some 1%positive))
        (Some "rule") (Some [Some "r1"; Some "r2"]) ["ok"].

Definition sampleCNP2 : CiliumNetworkPolicy :=
  mkCNP (mkTypeMeta "CiliumNetworkPolicy" "cilium.io/v2")
        (mkObjectMeta "allow-dns" "default" None (Some 2%positive))
        (Some "rule") (Some [Some "r1"; Some "r2"]) ["pending"].

Definition sampleCNP3 : CiliumNetworkPolicy :=
  mkCNP (mkTypeMeta "CiliumClusterwideNetworkPolicy" "cilium.io/v2")
        (mkObjectMeta "deny-world" EmptyString None (Some 3%positive))
        (Some "rule") None [].

Definition sampleCCNP : CiliumClusterwideNetworkPolicy :=
  mkCCNP (Some 3%positive) ["enforcing"].

Definition sampleTaintA : Taint :=
  mkTaint "a" "1" "NoSchedule" (Some (mkTime 0 "UTC")).

Definition sampleTaintB : Taint :=
  mkTaint "b" "2" "NoSchedule" (Some (mkTime 60 "UTC")).

Definition sampleNode : v1_Node :=
  mkV1Node (mkTypeMeta "Node" "v1")
           (mkObjectMeta "worker-1" EmptyString None (Some 3%positive))
           (mkNodeSpec "10.0.0.0/24" (Some ["10.0.0.0/24"])
                       (Some [sampleTaintA; sampleTaintB]))
           (mkNodeStatus (Some [mkNodeAddress "InternalIP" "192.0.2.1"])).

Definition sampleSlimNode (taints : slice Taint) : types_Node :=
  mkNode (mkTypeMeta "Node" "v1")
         (mkObjectMeta "worker-1" EmptyString None (Some 3%positive))
         None "10.0.0.0/24" None taints.

Definition sampleHeap : heap :=
  mkHeap (<[1%positive := sampleAnnotations1]>
            (<[2%positive := sampleAnnotations2]>
               (<[3%positive := sampleOtherAnnotations]> ∅)))
         (<[1%positive := sampleCNP1]>
            (<[2%positive := sampleCNP2]> (<[3%positive := sampleCNP3]> ∅)))
         (<[1%positive := sampleCCNP]> ∅)
         (<[1%positive := sampleNode]> ∅)
         (<[1%positive := mkV1Namespace (mkTypeMeta "Namespace" "v1")
                            (mkObjectMeta "default" EmptyString
                                          (Some 3%positive) None)
                            (Some ["kubernetes"]) "Active"]> ∅).

Definition sampleK8sNetworkPolicy : networkingv1_NetworkPolicy :=
  mkK8sNetworkPolicy (mkTypeMeta "NetworkPolicy" "networking.k8s.io/v1")
                     (mkObjectMeta "name" "ns" None None) ["ingress"].

Definition sampleContainer (env : slice EnvVar) : Container :=
  mkContainer "app" "registry/app:1" env (Some [mkVolumeMount "/data"]).

Definition samplePod (env : slice EnvVar) (podIP : string) : Pod :=
  mkPod (mkObjectMeta "app-0" "default" (Some 3%positive) None)
        (mkPodSpec (Some [sampleContainer env]) "default" false)
        (mkPodStatus "192.0.2.1" podIP (Some [mkPodIP "10.0.0.7"])).

End Samples.

(** ** More sample objects

    Two services, an endpoint with an encryption key, and client
    libraries whose constructors refuse a config without rate limiter. *)

Section MoreSamples.
#[local] Existing Instance samplePayloads.

Definition sampleService (annotations : option loc) : types_Service :=
  mkService (Some (mkK8sService (mkTypeMeta "Service" "v1")
                     (mkObjectMeta "dns" "kube-system" None annotations)
                     "ClusterIP" "ok")).




Definition sampleContainerTwoMounts : Container :=
  mkContainer "app" "registry/app:1" None
              (Some [mkVolumeMount "/data"; mkVolumeMount "/logs"]).

Definition sampleEndpointPayloads : EndpointPayloads := {|
  EncryptionSpec := Z;
  zeroEncryptionSpec := 0%Z;
  EndpointIdentity := option Z;
  zeroEndpointIdentity := None;
  EndpointNetworking := option string;
  zeroEndpointNetworking := None;
  NamedPorts := list string;
  zeroNamedPorts := [];
|}.

#[local] Existing Instance sampleEndpointPayloads.

Definition sampleEndpoint : cilium_v2_CiliumEndpoint :=
  mkRawCiliumEndpoint (mkTypeMeta "CiliumEndpoint" "cilium.io/v2")
    (mkObjectMeta "app-0" "default" None None)
    (mkEndpointStatus 3%Z (Some 4711%Z) (Some "10.0.0.7") ["http"]).

Definition sampleEndpoints : gmap loc cilium_v2_CiliumEndpoint :=
  <[1%positive := sampleEndpoint]> ∅.

Definition sampleClientLibraries : ClientLibraries := {|
  RateLimiter := Z * Z;
  float32 := Z;
  positive_float32 := λ q, (0 <? q)%Z;
  NewTokenBucketRateLimiter := λ qps burst, (qps, burst);
  ConfigRest := string;
  kubernetes_Clientset := string;
  CoreV1Client := string;
  slim_CoreV1Client := string;
  RESTInterface := string;
  ExternalError := string;
  RESTClient := λ c, c;
  corev1_New := λ c, c;
|}.

#[local] Existing Instance sampleClientLibraries.

Definition sampleConfig (limiter : option (Z * Z)) (qps burst : Z)
  : Config := mkConfig limiter qps burst "cluster".

Definition sampleLibraryError : error := FromLibrary "no rate limiter".

Definition sampleKubernetesNewForConfig (c : Config) : string + error :=
  match cfg_RateLimiter c with
  | Some _ => inl (cfg_rest c)
  | None => inr sampleLibraryError
  end.

Definition sampleSlimNewForConfig (c : Config) : string + error :=
  inl (cfg_rest c).

End MoreSamples.

(** ** Vocabulary of the further properties *)

(** A taint with the time it was added shown in another location: the
    instant is the same. *)
Definition relocate (zone : string) (taint : Taint) : Taint :=
  mkTaint (Key taint) (Value taint) (Effect taint)
          ((λ t, mkTime (instant t) zone) <$> TimeAdded taint).

(** A taint with its time replaced. *)
Definition withTimeAdded (t : ptr Time) (taint : Taint) : Taint :=
  mkTaint (Key taint) (Value taint) (Effect taint) t.

(** * Properties *)

(** ** The loops *)

Lemma rangeEach_true {A} (body : A → bool) (xs : list A) :
  rangeEach body xs = true ↔ Forall (λ x, body x = true) xs.
Proof.
  induction xs as [|x xs IH]; simpl.
  - split; [constructor | reflexivity].
  - destruct (body x) eqn:Hx.
    + rewrite IH. split.
      * intros Hxs. constructor; assumption.
      * intros Hall. inversion Hall; assumption.
    + split; [discriminate |].
      intros Hall. inversion Hall; congruence.
Qed.

Lemma rangeAll_Forall2 {A B} (body : A → B → option bool) xs ys :
  Forall2 (λ x y, body x y = Some true) xs ys →
  rangeAll body xs ys = Some true.
Proof.
  induction 1 as [|x y xs ys Hxy _ IH]; simpl; [reflexivity |].
  rewrite Hxy. exact IH.
Qed.

Lemma rangeAll_refl {A} (body : A → A → option bool) xs :
  (∀ x, body x x = Some true) → rangeAll body xs xs = Some true.
Proof.
  intros Hbody. apply rangeAll_Forall2.
  induction xs; constructor; auto.
Qed.

Lemma rangeAll_true_inv {A B} (body : A → B → option bool) xs ys :
  length xs = length ys →
  rangeAll body xs ys = Some true →
  Forall2 (λ x y, body x y = Some true) xs ys.
Proof.
  revert ys. induction xs as [|x xs IH]; intros [|y ys] Hlen Hrun;
    simpl in *; try discriminate; [constructor |].
  destruct (body x y) as [[|]|] eqn:Hxy; try discriminate.
  constructor; [exact Hxy |]. apply IH; [lia | exact Hrun].
Qed.

Lemma rangeAll_total {A B} (body : A → B → option bool) xs ys :
  length xs = length ys →
  (∀ x y, is_Some (body x y)) →
  is_Some (rangeAll body xs ys).
Proof.
  intros Hlen Hbody. revert ys Hlen.
  induction xs as [|x xs IH]; intros [|y ys] Hlen; simpl in *;
    try discriminate; [eexists; reflexivity |].
  destruct (Hbody x y) as [[|] ->]; [| eexists; reflexivity].
  apply IH. lia.
Qed.

Section Properties.
Context `{Payloads}.

(** ** Casts *)

(** C8.  A cast helper given a value that is not a pointer of the type it
    expects returns nil; it neither fails nor reports an error, and the
    only trace is one line logged at warning level with the value under
    [logfields.Object]. *)
Theorem ObjTo_mismatch_nil (o : obj) :
  ((∀ p, o ≠ Slim_NetworkPolicy p) →
   ObjToV1NetworkPolicy o
   = (None, [mkEntry WarnLevel o "Ignoring invalid k8s v1 NetworkPolicy"])) ∧
  ((∀ p, o ≠ Slim_Service p) →
   ObjToV1Services o
   = (None, [mkEntry WarnLevel o "Ignoring invalid k8s v1 Service"])) ∧
  ((∀ p, o ≠ Slim_Endpoints p) →
   ObjToV1Endpoints o
   = (None, [mkEntry WarnLevel o "Ignoring invalid k8s v1 Endpoints"])) ∧
  ((∀ p, o ≠ Slim_EndpointSlice p) →
   ObjToV1EndpointSlice o
   = (None, [mkEntry WarnLevel o "Ignoring invalid k8s v1 EndpointSlice"])) ∧
  ((∀ p, o ≠ Slim_CNP p) →
   ObjToSlimCNP o
   = (None,
      [mkEntry WarnLevel o "Ignoring invalid k8s v2 CiliumNetworkPolicy"])) ∧
  ((∀ p, o ≠ Slim_Pod p) →
   ObjTov1Pod o
   = (None, [mkEntry WarnLevel o "Ignoring invalid k8s v1 Pod"])) ∧
  ((∀ p, o ≠ Slim_Node p) →
   ObjToV1Node o
   = (None, [mkEntry WarnLevel o "Ignoring invalid k8s v1 Node"])) ∧
  ((∀ p, o ≠ Slim_Namespace p) →
   ObjToV1Namespace o
   = (None, [mkEntry WarnLevel o "Ignoring invalid k8s v1 Namespace"])) ∧
  ((∀ p, o ≠ Cilium_Node p) →
   ObjToCiliumNode o
   = (None, [mkEntry WarnLevel o "Ignoring invalid CiliumNode"])) ∧
  ((∀ p, o ≠ Slim_CiliumEndpoint p) →
   ObjToCiliumEndpoint o
   = (None, [mkEntry WarnLevel o "Ignoring invalid CiliumEndpoint"])).
Proof.
  repeat split; intros Hne; destruct o; try reflexivity;
    exfalso; eapply Hne; reflexivity.
Qed.

(** ** Tombstones *)

(** C1.  On a deletion wrapper whose payload is a raw network policy,
    [ConvertToNetworkPolicy] returns a wrapper with the same key around the
    normalised policy; on a wrapper with any other payload it returns the
    wrapper it was given, key and payload untouched. *)
Theorem ConvertToNetworkPolicy_tombstone (key : string) (payload : obj) :
  (∀ netPol, payload = Raw_NetworkPolicy netPol →
     ConvertToNetworkPolicy (DeletedFinalStateUnknown key payload)
     = DeletedFinalStateUnknown key
         (Slim_NetworkPolicy (Some (mkNetworkPolicy netPol))) ∧
     ConvertToNetworkPolicy payload
     = Slim_NetworkPolicy (Some (mkNetworkPolicy netPol))) ∧
  ((∀ netPol, payload ≠ Raw_NetworkPolicy netPol) →
     ConvertToNetworkPolicy (DeletedFinalStateUnknown key payload)
     = DeletedFinalStateUnknown key payload).
Proof.
  split.
  - intros netPol ->. split; reflexivity.
  - intros Hne. destruct payload; try reflexivity.
    exfalso. eapply Hne. reflexivity.
Qed.

(** ** Annotations on an allow-list *)

(** C9.  [AnnotationsEqual] answers true exactly when, for each listed key,
    the two maps hold the same value, a key that is absent (or a nil map)
    reading as the empty string.  So a key absent on both sides is equal,
    and a key absent on one side is equal to the same key present with the
    empty string on the other. *)
Theorem AnnotationsEqual_iff (relevantAnnotations : slice string)
  (anno1 anno2 : option (gmap string string)) :
  (AnnotationsEqual relevantAnnotations anno1 anno2 = true ↔
   ∀ an, an ∈ elems relevantAnnotations →
         default EmptyString (get anno1 an)
         = default EmptyString (get anno2 an)) ∧
  (∀ an, get anno1 an = None → get anno2 an = None →
         AnnotationsEqual (Some [an]) anno1 anno2 = true) ∧
  (∀ an, get anno1 an = None → get anno2 an = Some EmptyString →
         AnnotationsEqual (Some [an]) anno1 anno2 = true ∧
         AnnotationsEqual (Some [an]) anno2 anno1 = true).
Proof.
  split; [| split].
  - unfold AnnotationsEqual. rewrite rangeEach_true, Forall_forall.
    split; intros Hall an Han; specialize (Hall an Han).
    + apply bool_decide_eq_true in Hall. exact Hall.
    + apply bool_decide_eq_true. exact Hall.
  - intros an H1 H2. unfold AnnotationsEqual, index; simpl.
    rewrite H1, H2. reflexivity.
  - intros an H1 H2. unfold AnnotationsEqual, index; simpl.
    rewrite H1, H2. split; reflexivity.
Qed.

(** ** Pods *)

Lemma MapStringEquals_refl (m : option (gmap string string)) :
  MapStringEquals m m = true.
Proof.
  unfold MapStringEquals. rewrite !bool_decide_eq_true_2; reflexivity.
Qed.

Lemma AnnotationsEqual_refl rel (m : option (gmap string string)) :
  AnnotationsEqual rel m m = true.
Proof.
  unfold AnnotationsEqual. apply rangeEach_true, Forall_forall.
  intros an _. apply bool_decide_eq_true. reflexivity.
Qed.

Lemma EqualPodIPs_total a b : is_Some (EqualPodIPs a b).
Proof.
  unfold EqualPodIPs.
  destruct (bool_decide (isNil a = isNil b)); simpl; [| eexists; reflexivity].
  destruct (Nat.eqb_spec (len a) (len b)) as [Hlen|_]; simpl;
    [| eexists; reflexivity].
  apply rangeAll_total; [exact Hlen |]. intros x y. eexists; reflexivity.
Qed.

Lemma EqualPodIPs_refl a : EqualPodIPs a a = Some true.
Proof.
  unfold EqualPodIPs. rewrite bool_decide_eq_true_2 by reflexivity.
  rewrite Nat.eqb_refl; simpl. apply rangeAll_refl.
  intros x. rewrite bool_decide_eq_true_2; reflexivity.
Qed.

Lemma EqualPodIPs_nil_mismatch a b :
  isNil a ≠ isNil b → EqualPodIPs a b = Some false.
Proof.
  intros Hne. unfold EqualPodIPs.
  rewrite bool_decide_eq_false_2 by exact Hne. reflexivity.
Qed.

Lemma EqualV1PodContainers_total c1 c2 :
  is_Some (EqualV1PodContainers c1 c2).
Proof.
  unfold EqualV1PodContainers.
  destruct (_ || _); [eexists; reflexivity |].
  destruct (Nat.eqb_spec (len (c_VolumeMounts c1)) (len (c_VolumeMounts c2)))
    as [Hlen|_]; simpl; [| eexists; reflexivity].
  apply rangeAll_total; [exact Hlen |]. intros x y. eexists; reflexivity.
Qed.

Lemma EqualV1PodContainers_sameButEnv c1 c2 :
  sameButEnv c1 c2 → EqualV1PodContainers c1 c2 = Some true.
Proof.
  intros (Hname & Himage & Hmounts). unfold EqualV1PodContainers.
  rewrite Hname, Himage, Hmounts.
  rewrite !bool_decide_eq_true_2 by reflexivity.
  rewrite Nat.eqb_refl; simpl. apply rangeAll_refl.
  intros x. rewrite bool_decide_eq_true_2; reflexivity.
Qed.

Lemma EqualV1Pod_total h pod1 pod2 : is_Some (EqualV1Pod h pod1 pod2).
Proof.
  unfold EqualV1Pod.
  destruct (_ || _); [eexists; reflexivity |].
  destruct (EqualPodIPs_total (PodIPs (pod_Status pod1))
                              (PodIPs (pod_Status pod2))) as [[|] ->];
    simpl; [| eexists; reflexivity].
  destruct (AnnotationsEqual _ _ _); simpl; [| eexists; reflexivity].
  destruct (MapStringEquals _ _); simpl; [| eexists; reflexivity].
  destruct (Nat.eqb_spec (len (Containers (pod_Spec pod1)))
                         (len (Containers (pod_Spec pod2)))) as [Hlen|_];
    simpl; [| eexists; reflexivity].
  apply rangeAll_total; [exact Hlen |]. apply EqualV1PodContainers_total.
Qed.

Lemma EqualV1Pod_same_but_containers h pod1 pod2 :
  pod_ObjectMeta pod1 = pod_ObjectMeta pod2 →
  pod_Status pod1 = pod_Status pod2 →
  ServiceAccountName (pod_Spec pod1) = ServiceAccountName (pod_Spec pod2) →
  HostNetwork (pod_Spec pod1) = HostNetwork (pod_Spec pod2) →
  Forall2 sameButEnv (elems (Containers (pod_Spec pod1)))
                     (elems (Containers (pod_Spec pod2))) →
  EqualV1Pod h pod1 pod2 = Some true.
Proof.
  intros Hmeta Hstatus Hsa Hnet Hcs. unfold EqualV1Pod.
  rewrite Hmeta, Hstatus, Hsa, Hnet.
  rewrite !bool_decide_eq_true_2 by reflexivity; simpl.
  rewrite EqualPodIPs_refl; simpl.
  rewrite AnnotationsEqual_refl, MapStringEquals_refl; simpl.
  unfold len. rewrite (Forall2_length _ _ _ Hcs), Nat.eqb_refl; simpl.
  apply rangeAll_Forall2.
  eapply Forall2_impl; [exact Hcs |].
  intros c1 c2. apply EqualV1PodContainers_sameButEnv.
Qed.

Lemma sameButEnv_refl c : sameButEnv c c.
Proof. repeat split. Qed.

Lemma EqualV1Pod_refl h pod : EqualV1Pod h pod pod = Some true.
Proof.
  apply EqualV1Pod_same_but_containers; try reflexivity.
  induction (elems (Containers (pod_Spec pod))); constructor;
    [apply sameButEnv_refl | assumption].
Qed.

Lemma EqualV1Pod_PodIPs_nil_mismatch h pod1 pod2 :
  isNil (PodIPs (pod_Status pod1)) ≠ isNil (PodIPs (pod_Status pod2)) →
  EqualV1Pod h pod1 pod2 = Some false.
Proof.
  intros Hne. unfold EqualV1Pod.
  destruct (_ || _); [reflexivity |].
  rewrite (EqualPodIPs_nil_mismatch _ _ Hne). reflexivity.
Qed.

(** C7.  Two pods that are the same but for the environment variables of
    their containers compare equal; two pods whose [Status.PodIP] differ
    compare not equal, whatever else they hold. *)
Theorem EqualV1Pod_env_and_PodIP (h : heap) (pod1 pod2 : Pod) :
  (pod_ObjectMeta pod1 = pod_ObjectMeta pod2 →
   pod_Status pod1 = pod_Status pod2 →
   ServiceAccountName (pod_Spec pod1) = ServiceAccountName (pod_Spec pod2) →
   HostNetwork (pod_Spec pod1) = HostNetwork (pod_Spec pod2) →
   Forall2 sameButEnv (elems (Containers (pod_Spec pod1)))
                      (elems (Containers (pod_Spec pod2))) →
   EqualV1Pod h pod1 pod2 = Some true) ∧
  (status_PodIP (pod_Status pod1) ≠ status_PodIP (pod_Status pod2) →
   EqualV1Pod h pod1 pod2 = Some false).
Proof.
  split; [apply EqualV1Pod_same_but_containers |].
  intros Hip. unfold EqualV1Pod.
  rewrite (bool_decide_eq_false_2 _ Hip). reflexivity.
Qed.

(** C10.  [EqualPodIPs] answers false as soon as exactly one of its
    arguments is nil, also when both have length zero; so a pod whose
    [Status.PodIPs] is nil, equal to itself, is not equal to the same pod
    with an allocated empty list, and two pods never compare equal when
    one list is nil and the other is not. *)
Theorem EqualPodIPs_nil_not_empty :
  (∀ a b, isNil a ≠ isNil b → EqualPodIPs a b = Some false) ∧
  EqualPodIPs None (Some []) = Some false ∧
  EqualPodIPs (Some []) None = Some false ∧
  (∀ (h : heap) pod1 pod2,
     isNil (PodIPs (pod_Status pod1)) ≠ isNil (PodIPs (pod_Status pod2)) →
     EqualV1Pod h pod1 pod2 = Some false) ∧
  (∀ (h : heap) pod,
     EqualV1Pod h (withPodIPs None pod) (withPodIPs None pod) = Some true ∧
     EqualV1Pod h (withPodIPs None pod) (withPodIPs (Some []) pod)
     = Some false ∧
     EqualV1Pod h (withPodIPs (Some []) pod) (withPodIPs None pod)
     = Some false).
Proof.
  split; [exact EqualPodIPs_nil_mismatch |].
  split; [reflexivity |]. split; [reflexivity |].
  split; [intros h pod1 pod2; apply EqualV1Pod_PodIPs_nil_mismatch |].
  intros h pod. split; [apply EqualV1Pod_refl |].
  split; apply EqualV1Pod_PodIPs_nil_mismatch; simpl; discriminate.
Qed.

(** ** Nodes *)

Lemma equalTaint_total taint2 taint1 : is_Some (equalTaint taint2 taint1).
Proof.
  unfold equalTaint.
  repeat (match goal with |- context [if ?b then _ else _] => destruct b end);
    eexists; reflexivity.
Qed.

Lemma equalTaint_true taint2 taint1 :
  equalTaint taint2 taint1 = Some true ↔
  MatchTaint taint1 taint2 = true ∧ Value taint1 = Value taint2 ∧
  metav1_Time_Equal (TimeAdded taint1) (TimeAdded taint2) = true.
Proof.
  unfold equalTaint.
  destruct (MatchTaint taint1 taint2); simpl;
    [| split; [discriminate | intros (? & _); discriminate]].
  destruct (decide (Value taint1 = Value taint2)) as [Hv|Hv].
  - rewrite (bool_decide_eq_true_2 _ Hv); simpl.
    destruct (metav1_Time_Equal _ _); simpl.
    + split; auto.
    + split; [discriminate | intros (_ & _ & ?); discriminate].
  - rewrite (bool_decide_eq_false_2 _ Hv); simpl.
    split; [discriminate | intros (_ & ? & _); contradiction].
Qed.

Lemma metav1_Time_Equal_refl t : metav1_Time_Equal t t = true.
Proof. destruct t as [t|]; simpl; [apply Z.eqb_refl | reflexivity]. Qed.

Lemma equalTaint_refl taint : equalTaint taint taint = Some true.
Proof.
  apply equalTaint_true. unfold MatchTaint.
  rewrite !bool_decide_eq_true_2 by reflexivity.
  repeat split. apply metav1_Time_Equal_refl.
Qed.

Lemma EqualV1Node_total (h : heap) node1 node2 :
  is_Some (EqualV1Node h node1 node2).
Proof.
  unfold EqualV1Node.
  destruct (negb (bool_decide _)); [eexists; reflexivity |].
  destruct (negb (rangeEach _ _)); [eexists; reflexivity |].
  destruct (Nat.eqb_spec (len (SpecTaints node1)) (len (SpecTaints node2)))
    as [Hlen|_]; simpl; [| eexists; reflexivity].
  apply rangeAll_total; [symmetry; exact Hlen | apply equalTaint_total].
Qed.

Lemma EqualV1Node_true_taints (h : heap) node1 node2 :
  EqualV1Node h node1 node2 = Some true →
  len (SpecTaints node1) = len (SpecTaints node2) ∧
  Forall2 (λ taint2 taint1, equalTaint taint2 taint1 = Some true)
          (elems (SpecTaints node2)) (elems (SpecTaints node1)).
Proof.
  unfold EqualV1Node.
  destruct (negb (bool_decide _)); [discriminate |].
  destruct (negb (rangeEach _ _)); [discriminate |].
  destruct (Nat.eqb_spec (len (SpecTaints node1)) (len (SpecTaints node2)))
    as [Hlen|_]; simpl; [| discriminate].
  intros Hrun. split; [exact Hlen |].
  apply rangeAll_true_inv; [symmetry; exact Hlen | exact Hrun].
Qed.

Lemma rangeEach_index_refl (m : option (gmap string string)) ks :
  rangeEach (λ an, bool_decide (index m an = index m an)) ks = true.
Proof.
  apply rangeEach_true, Forall_forall.
  intros an _. apply bool_decide_eq_true. reflexivity.
Qed.

Lemma EqualV1Node_refl (h : heap) node : EqualV1Node h node node = Some true.
Proof.
  unfold EqualV1Node. cbv zeta.
  rewrite bool_decide_eq_true_2 by reflexivity.
  rewrite rangeEach_index_refl, Nat.eqb_refl; simpl.
  apply rangeAll_refl, equalTaint_refl.
Qed.

Lemma EqualV1Node_swap (h : heap) node ta tb :
  Key ta ≠ Key tb →
  EqualV1Node h (withTaints (Some [ta; tb]) node)
                (withTaints (Some [tb; ta]) node) = Some false.
Proof.
  intros Hkey. unfold EqualV1Node, withTaints. cbv zeta.
  cbn [tnode_ObjectMeta SpecTaints].
  rewrite bool_decide_eq_true_2 by reflexivity.
  rewrite rangeEach_index_refl; simpl.
  unfold equalTaint, MatchTaint.
  rewrite (bool_decide_eq_false_2 _ Hkey). reflexivity.
Qed.

(** C6.  [EqualV1Node] always answers, and it answers true only when the
    two taint lists have the same length and, at every index, the two
    taints match on key and effect ([MatchTaint]), carry the same value and
    were added at the same instant.  The comparison goes by position: the
    taints [(a,1,t0); (b,2,t1)] against the same two taints in the other
    order compare not equal, on any node. *)
Theorem EqualV1Node_taints_by_position (h : heap) (node1 node2 : types_Node) :
  is_Some (EqualV1Node h node1 node2) ∧
  (EqualV1Node h node1 node2 = Some true →
   len (SpecTaints node1) = len (SpecTaints node2) ∧
   ∀ i taint1 taint2,
     elems (SpecTaints node1) !! i = Some taint1 →
     elems (SpecTaints node2) !! i = Some taint2 →
     MatchTaint taint1 taint2 = true ∧ Value taint1 = Value taint2 ∧
     metav1_Time_Equal (TimeAdded taint1) (TimeAdded taint2) = true) ∧
  (∀ effect t0 t1,
     EqualV1Node h
       (withTaints (Some [mkTaint "a" "1" effect t0;
                          mkTaint "b" "2" effect t1]) node1)
       (withTaints (Some [mkTaint "b" "2" effect t1;
                          mkTaint "a" "1" effect t0]) node1)
     = Some false).
Proof.
  split; [apply EqualV1Node_total |]. split.
  - intros Htrue. apply EqualV1Node_true_taints in Htrue as [Hlen Hall].
    split; [exact Hlen |].
    intros i taint1 taint2 H1 H2.
    apply equalTaint_true.
    exact (Forall2_lookup_lr _ _ _ _ _ _ Hall H2 H1).
  - intros effect t0 t1. apply EqualV1Node_swap. simpl. discriminate.
Qed.

(** ** Policies with status: the last-applied configuration *)

Lemma entries_lookup (m : option (gmap string string)) k :
  entries m !! k = get m k.
Proof. destruct m; simpl; [reflexivity | apply lookup_empty]. Qed.

Lemma lookup_mapDelete r k (σ : gmap loc (gmap string string)) l :
  mapDelete r k σ !! l
  = if decide (r = Some l) then delete k <$> σ !! l else σ !! l.
Proof.
  unfold mapDelete. destruct r as [l'|].
  - rewrite lookup_alter.
    destruct (decide (l' = l)) as [->|Hne].
    + rewrite decide_True by reflexivity. reflexivity.
    + rewrite decide_False by congruence. reflexivity.
  - rewrite decide_False by discriminate. reflexivity.
Qed.

Lemma lookup_restoreLastApplied r saved
  (σ : gmap loc (gmap string string)) l :
  restoreLastApplied r saved σ !! l
  = if decide (r = Some l)
    then (if snd saved
          then insert LastAppliedConfigAnnotation (fst saved)
          else id) <$> σ !! l
    else σ !! l.
Proof.
  unfold restoreLastApplied, mapAssign.
  destruct (snd saved), r as [l'|];
    try (rewrite decide_False by discriminate; reflexivity).
  - rewrite lookup_alter.
    destruct (decide (l' = l)) as [->|Hne].
    + rewrite decide_True by reflexivity. reflexivity.
    + rewrite decide_False by congruence. reflexivity.
  - destruct (decide (Some l' = Some l)); [| reflexivity].
    destruct (σ !! l); reflexivity.
Qed.

(** Putting back what was read before the deletion gives the map back,
    also when the deletion and the write are each done twice. *)
Lemma restore_delete (m : gmap string string) k :
  (if snd (index2 (Some m) k)
   then insert k (fst (index2 (Some m) k)) else id) (delete k m) = m.
Proof.
  unfold index2, get; simpl. destruct (m !! k) as [v|] eqn:Hk; simpl.
  - rewrite insert_delete_eq. apply insert_id. exact Hk.
  - apply delete_id. exact Hk.
Qed.

Lemma restore_delete_twice (m : gmap string string) k :
  let f := if snd (index2 (Some m) k)
           then insert k (fst (index2 (Some m) k)) else id in
  f (f (delete k (delete k m))) = m.
Proof.
  unfold index2, get; simpl. destruct (m !! k) as [v|] eqn:Hk; simpl.
  - rewrite insert_insert_eq, delete_delete_eq, insert_delete_eq.
    apply insert_id. exact Hk.
  - rewrite delete_delete_eq. apply delete_id. exact Hk.
Qed.

Lemma maps_restored (σ : gmap loc (gmap string string)) r1 r2 :
  restoreLastApplied r2
    (index2 (view σ r2) LastAppliedConfigAnnotation)
    (restoreLastApplied r1
       (index2 (view σ r1) LastAppliedConfigAnnotation)
       (mapDelete r2 LastAppliedConfigAnnotation
          (mapDelete r1 LastAppliedConfigAnnotation σ)))
  = σ.
Proof.
  apply map_eq. intros l.
  rewrite !lookup_restoreLastApplied, !lookup_mapDelete.
  destruct (decide (r1 = Some l)) as [->|H1],
           (decide (r2 = Some l)) as [->|H2]; simpl;
    destruct (σ !! l) as [m|] eqn:Hl; simpl; try reflexivity;
    rewrite ?Hl; simpl; f_equal.
  - apply restore_delete_twice.
  - apply restore_delete.
  - apply restore_delete.
Qed.

Lemma set_maps_same (h : heap) : set_maps (maps h) h = h.
Proof. destruct h; reflexivity. Qed.

Lemma get_view_mapDelete r k (σ : gmap loc (gmap string string)) a k' :
  get (view (mapDelete r k σ) a) k'
  = if decide (r = a ∧ k = k') then None else get (view σ a) k'.
Proof.
  unfold get, view. destruct a as [l|]; simpl.
  - rewrite lookup_mapDelete.
    destruct (decide (r = Some l)) as [->|Hr].
    + destruct (σ !! l) as [m|]; simpl.
      * destruct (decide (k = k')) as [->|Hk].
        -- rewrite decide_True by auto. apply lookup_delete_eq.
        -- rewrite decide_False by tauto. apply lookup_delete_ne. exact Hk.
      * destruct (decide _); reflexivity.
    + rewrite decide_False by tauto. reflexivity.
  - destruct (decide _); reflexivity.
Qed.

(** C3.  Whatever [EqualV2CNP] answers, the heap it leaves is the heap it
    was given: every annotation map holds the entries it held before the
    call, the last-applied configuration of each policy included; and the
    call does return on two policies of the heap. *)
Theorem EqualV2CNP_restores_annotations (cnp1 cnp2 : SlimCNP) (h : heap) :
  (∀ result h', EqualV2CNP cnp1 cnp2 h = Some (result, h') → h' = h) ∧
  (allocated (cnps h) (slim_CiliumNetworkPolicy cnp1) = true →
   allocated (cnps h) (slim_CiliumNetworkPolicy cnp2) = true →
   ∃ result, EqualV2CNP cnp1 cnp2 h = Some (result, h)).
Proof.
  assert (Hframe : ∀ result h',
            EqualV2CNP cnp1 cnp2 h = Some (result, h') → h' = h).
  { intros result h'. unfold EqualV2CNP.
    destruct (slim_CiliumNetworkPolicy cnp1) as [l1|]; [| discriminate].
    simpl. destruct (cnps h !! l1) as [c1|]; [| discriminate].
    simpl. destruct (slim_CiliumNetworkPolicy cnp2) as [l2|]; [| discriminate].
    simpl. destruct (cnps h !! l2) as [c2|]; [| discriminate].
    simpl. destruct (negb _); intros [= _ <-]; [reflexivity |].
    rewrite maps_restored. apply set_maps_same. }
  split; [exact Hframe |].
  unfold allocated. intros Ha1 Ha2.
  destruct (EqualV2CNP cnp1 cnp2 h) as [[result h']|] eqn:Hrun.
  - exists result. rewrite (Hframe _ _ eq_refl). reflexivity.
  - exfalso. unfold EqualV2CNP in Hrun.
    destruct (slim_CiliumNetworkPolicy cnp1) as [l1|]; [| discriminate].
    simpl in *. destruct (cnps h !! l1) as [c1|]; [| discriminate].
    destruct (slim_CiliumNetworkPolicy cnp2) as [l2|]; [| discriminate].
    simpl in *. destruct (cnps h !! l2) as [c2|]; [| discriminate].
    simpl in Hrun. destruct (negb _); discriminate.
Qed.

Lemma isNil_view_mapDelete r k (σ : gmap loc (gmap string string)) a :
  isNil (view (mapDelete r k σ) a) = isNil (view σ a).
Proof.
  unfold view. destruct a as [l|]; simpl; [| reflexivity].
  rewrite lookup_mapDelete.
  destruct (decide (r = Some l)); [| reflexivity].
  destruct (σ !! l); reflexivity.
Qed.

Lemma MapStringEquals_after_delete (σ : gmap loc (gmap string string))
  a1 a2 :
  isNil (view σ a1) = isNil (view σ a2) →
  (∀ k, k ≠ LastAppliedConfigAnnotation →
        get (view σ a1) k = get (view σ a2) k) →
  let σ2 := mapDelete a2 LastAppliedConfigAnnotation
              (mapDelete a1 LastAppliedConfigAnnotation σ) in
  MapStringEquals (view σ2 a1) (view σ2 a2) = true.
Proof.
  intros Hnil Hann σ2. unfold MapStringEquals, σ2.
  rewrite !isNil_view_mapDelete.
  rewrite (bool_decide_eq_true_2 _ Hnil); simpl.
  rewrite bool_decide_eq_true_2; [reflexivity |].
  apply map_eq. intros k. rewrite !entries_lookup, !get_view_mapDelete.
  destruct (decide (LastAppliedConfigAnnotation = k)) as [<-|Hk].
  - repeat case_decide; try reflexivity; exfalso; intuition congruence.
  - rewrite !decide_False by tauto. apply Hann. congruence.
Qed.


(** ** Cluster-wide policies: what happens to the source *)

(** C5, as amended.  [ConvertToCCNPWithStatus], applied to a cluster-wide
    policy of the heap, clears nothing: the source keeps its embedded
    pointer and its status, the result shares the embedded policy (with
    its metadata, annotations, spec and specs), whose status field now
    holds the status of the source, and no annotation map changes.  The
    conversion that sets the fields of the source to their zero values is
    [ConvertToCCNP], the one that drops the status. *)
Theorem ConvertToCCNPWithStatus_keeps_source (l : loc) (h : heap) cc lc c :
  ccnps h !! l = Some cc →
  ccnp_CiliumNetworkPolicy cc = Some lc →
  cnps h !! lc = Some c →
  (∃ h', ConvertToCCNPWithStatus (Raw_CCNP (Some l)) h
         = Some (Slim_CNP (Some (mkSlimCNP (Some lc))), h') ∧
         ccnps h' !! l = Some cc ∧
         cnps h' !! lc
         = Some (mkCNP (cnp_TypeMeta c) (cnp_ObjectMeta c) (cnp_Spec c)
                       (cnp_Specs c) (ccnp_Status cc)) ∧
         maps h' = maps h) ∧
  (∃ N h', ConvertToCCNP (Raw_CCNP (Some l)) h = Some (N, h') ∧
           ccnps h' !! l = Some zeroCiliumClusterwideNetworkPolicy).
Proof.
  intros Hcc Hlc Hc. split.
  - unfold ConvertToCCNPWithStatus, slimOfCCNPWithStatus; simpl.
    rewrite Hcc; simpl. rewrite Hlc; simpl. rewrite Hc; simpl.
    eexists. split; [reflexivity |]. simpl.
    split; [exact Hcc |]. split; [apply lookup_insert_eq | reflexivity].
  - unfold ConvertToCCNP, slimOfCCNP, newCNP; simpl.
    rewrite Hcc; simpl. rewrite Hlc; simpl. rewrite Hc; simpl.
    eexists _, _. split; [reflexivity |]. simpl. apply lookup_insert_eq.
Qed.

(** ** Reflexivity on normalised objects *)

Section Reflexivity.
Variable ParseService :
  heap → types_Service → NodeAddressing → ServiceID * option ServiceInfo.

Lemma EqualV2CNP_refl (l : loc) (h : heap) c :
  cnps h !! l = Some c →
  EqualV2CNP (mkSlimCNP (Some l)) (mkSlimCNP (Some l)) h = Some (true, h).
Proof.
  intros Hc. unfold EqualV2CNP; simpl. rewrite Hc; simpl.
  rewrite !bool_decide_eq_true_2 by reflexivity; simpl.
  rewrite maps_restored, set_maps_same.
  rewrite MapStringEquals_after_delete by reflexivity.
  unfold DeepEqual. rewrite !bool_decide_eq_true_2 by reflexivity.
  reflexivity.
Qed.

Lemma EqualV1Services_refl (h : heap) svc nodeAddressing k :
  Service svc = Some k →
  EqualV1Services ParseService h svc svc nodeAddressing = Some true.
Proof.
  intros Hk. unfold EqualV1Services. rewrite Hk; simpl.
  rewrite MapStringEquals_refl; simpl.
  destruct (ParseService h svc nodeAddressing) as [svcID info].
  rewrite bool_decide_eq_true_2 by reflexivity; simpl.
  unfold Service_DeepEquals. rewrite bool_decide_eq_true_2; reflexivity.
Qed.

Lemma allocated_Some {A} (m : gmap loc A) p :
  allocated m p = true → ∃ l x, p = Some l ∧ m !! l = Some x.
Proof.
  unfold allocated. destruct p as [l|]; simpl; [| discriminate].
  destruct (m !! l) as [x|] eqn:Hl; [| discriminate]. eauto.
Qed.

Lemma fresh_cnp_lookup (m : gmap loc CiliumNetworkPolicy) l c :
  m !! l = Some c → fresh (dom m) ≠ l.
Proof.
  intros Hl Heq. apply (is_fresh (dom m)). rewrite Heq.
  apply elem_of_dom. eauto.
Qed.

(** C4.  For every kind and every valid raw object of the kind, the
    normaliser returns, and the comparison of the kind, given the
    normalised object on both sides, answers true. *)
Theorem Equal_Normalize_reflexive (k : ResourceKind)
  (nodeAddressing : NodeAddressing) (O : obj) (h : heap) :
  validRaw k O h = true →
  ∃ N h', Normalize k O h = Some (N, h') ∧
          Equal ParseService k nodeAddressing N N h' = Some (true, h').
Proof.
  intros Hvalid.
  destruct k, O as [| [?|] | [?|] | [?|] | [?|] | p | p | p | p
                    | ? | ? | ? | ? | ? | [?|] | ? | ? | ? | ? | ? ? | ?];
    simpl in Hvalid; try discriminate.
  - (* network policy *)
    eexists _, _. split; [reflexivity |]. simpl.
    unfold DeepEqual. rewrite !bool_decide_eq_true_2 by reflexivity.
    reflexivity.
  - (* service *)
    eexists _, _. split; [reflexivity |]. simpl.
    erewrite EqualV1Services_refl by reflexivity. reflexivity.
  - (* endpoints *)
    eexists _, _. split; [reflexivity |]. simpl.
    unfold DeepEqual. rewrite !bool_decide_eq_true_2 by reflexivity.
    reflexivity.
  - (* endpoint slice *)
    eexists _, _. split; [reflexivity |]. simpl.
    unfold DeepEqual. rewrite !bool_decide_eq_true_2 by reflexivity.
    reflexivity.
  - (* policy, status kept: the pointer is shared *)
    apply allocated_Some in Hvalid as (l & c & -> & Hc).
    eexists _, _. split; [reflexivity |]. simpl.
    eapply EqualV2CNP_refl. exact Hc.
  - (* cluster-wide policy, status kept *)
    destruct p as [l|]; simpl in Hvalid; [| discriminate].
    destruct (ccnps h !! l) as [cc|] eqn:Hcc; [| discriminate].
    apply allocated_Some in Hvalid as (lc & c & Hlc & Hc).
    unfold Normalize, ConvertToCCNPWithStatus, slimOfCCNPWithStatus; simpl.
    rewrite Hcc; simpl. rewrite Hlc; simpl. rewrite Hc; simpl.
    eexists _, _. split; [reflexivity |]. simpl.
    eapply EqualV2CNP_refl. simpl. apply lookup_insert_eq.
  - (* policy, status dropped *)
    apply allocated_Some in Hvalid as (l & c & -> & Hc).
    unfold Normalize, ConvertToCNP, slimOfCNP, newCNP; simpl.
    rewrite Hc; simpl.
    eexists _, _. split; [reflexivity |]. simpl.
    eapply EqualV2CNP_refl. simpl.
    rewrite lookup_insert_ne by (symmetry; eapply fresh_cnp_lookup; eauto).
    apply lookup_insert_eq.
  - (* cluster-wide policy, status dropped *)
    destruct p as [l|]; simpl in Hvalid; [| discriminate].
    destruct (ccnps h !! l) as [cc|] eqn:Hcc; [| discriminate].
    apply allocated_Some in Hvalid as (lc & c & Hlc & Hc).
    unfold Normalize, ConvertToCCNP, slimOfCCNP, newCNP; simpl.
    rewrite Hcc; simpl. rewrite Hlc; simpl. rewrite Hc; simpl.
    eexists _, _. split; [reflexivity |]. simpl.
    eapply EqualV2CNP_refl. simpl. apply lookup_insert_eq.
  - (* pod *)
    eexists _, _. split; [reflexivity |]. simpl.
    rewrite EqualV1Pod_refl. reflexivity.
  - (* node *)
    apply allocated_Some in Hvalid as (l & n & -> & Hn).
    unfold Normalize, ConvertToNode, slimOfNode; simpl. rewrite Hn; simpl.
    eexists _, _. split; [reflexivity |]. simpl.
    rewrite EqualV1Node_refl. reflexivity.
  - (* namespace *)
    apply allocated_Some in Hvalid as (l & n & -> & Hn).
    unfold Normalize, ConvertToNamespace, slimOfNamespace; simpl.
    rewrite Hn; simpl.
    eexists _, _. split; [reflexivity |]. simpl.
    unfold EqualV1Namespace.
    rewrite bool_decide_eq_true_2 by reflexivity.
    rewrite MapStringEquals_refl. reflexivity.
Qed.

End Reflexivity.

End Properties.

(** * Further properties of the comparisons *)

Lemma rangeAll_true_iff {A B} (body : A → B → option bool) xs ys :
  length xs = length ys →
  rangeAll body xs ys = Some true ↔
  Forall2 (λ x y, body x y = Some true) xs ys.
Proof.
  intros Hlen. split; [apply rangeAll_true_inv, Hlen | apply rangeAll_Forall2].
Qed.

Lemma rangeAll_flip {A} (body : A → A → option bool) xs ys :
  length xs = length ys →
  (∀ x y, body x y = body y x) →
  rangeAll body xs ys = rangeAll body ys xs.
Proof.
  intros Hlen Hsym. revert ys Hlen.
  induction xs as [|x xs IH]; intros [|y ys] Hlen; simpl in *;
    try discriminate; [reflexivity |].
  rewrite (Hsym x y). destruct (body y x) as [[|]|]; try reflexivity.
  apply IH. lia.
Qed.

Lemma bool_decide_sym {A} `{EqDecision A} (x y : A) :
  bool_decide (x = y) = bool_decide (y = x).
Proof. apply bool_decide_ext. split; intros ->; reflexivity. Qed.

Lemma slice_ext {A} (a b : option (list A)) :
  isNil a = isNil b → elems a = elems b → a = b.
Proof.
  destruct a, b; simpl; intros Hnil Helems; try discriminate;
    congruence.
Qed.

Section ComparisonProperties.
Context `{Payloads}.

(** ** Pod IPs and containers *)

Lemma EqualPodIPs_true_inv (a b : option (list PodIP)) :
  EqualPodIPs a b = Some true → a = b.
Proof.
  unfold EqualPodIPs.
  destruct (decide (isNil a = isNil b)) as [Hnil|Hnil];
    [rewrite (bool_decide_eq_true_2 _ Hnil)
    | rewrite (bool_decide_eq_false_2 _ Hnil); discriminate].
  destruct (Nat.eqb_spec (len a) (len b)) as [Hlen|_]; simpl;
    [| discriminate].
  intros Hrun. apply slice_ext; [exact Hnil |].
  apply rangeAll_true_inv in Hrun; [| exact Hlen].
  apply list_eq_Forall2. eapply Forall2_impl; [exact Hrun |].
  intros x y [= Hxy]. apply bool_decide_eq_true in Hxy. exact Hxy.
Qed.

(** X1.  [EqualPodIPs] decides equality of slices: it never panics, it
    answers true on two equal slices (both nil, or both allocated with the
    same addresses in the same order) and false on any other pair. *)
Theorem EqualPodIPs_decides (a b : option (list PodIP)) :
  EqualPodIPs a b = Some (bool_decide (a = b)).
Proof.
  destruct (decide (a = b)) as [->|Hne].
  - rewrite bool_decide_eq_true_2 by reflexivity. apply EqualPodIPs_refl.
  - rewrite (bool_decide_eq_false_2 _ Hne).
    destruct (EqualPodIPs_total a b) as [[|] Hrun]; [| exact Hrun].
    apply EqualPodIPs_true_inv in Hrun. contradiction.
Qed.

(** What [EqualV1PodContainers] looks at: the name, the image and the
    mount paths in order. *)
Lemma EqualV1PodContainers_true c1 c2 :
  EqualV1PodContainers c1 c2 = Some true ↔
  c_Name c1 = c_Name c2 ∧ c_Image c1 = c_Image c2 ∧
  MountPath <$> elems (c_VolumeMounts c1)
  = MountPath <$> elems (c_VolumeMounts c2).
Proof.
  unfold EqualV1PodContainers.
  destruct (decide (c_Name c1 = c_Name c2)) as [Hn|Hn];
    [rewrite (bool_decide_eq_true_2 _ Hn)
    | rewrite (bool_decide_eq_false_2 _ Hn); simpl;
      split; [discriminate | intros (? & _); contradiction]].
  destruct (decide (c_Image c1 = c_Image c2)) as [Hi|Hi];
    [rewrite (bool_decide_eq_true_2 _ Hi)
    | rewrite (bool_decide_eq_false_2 _ Hi); simpl;
      split; [discriminate | intros (_ & ? & _); contradiction]].
  simpl.
  destruct (Nat.eqb_spec (len (c_VolumeMounts c1)) (len (c_VolumeMounts c2)))
    as [Hlen|Hlen]; simpl.
  - rewrite rangeAll_true_iff by exact Hlen.
    rewrite list_eq_Forall2, Forall2_fmap.
    split.
    + intros Hall. repeat split; try assumption.
      eapply Forall2_impl; [exact Hall |].
      intros x y [= Hxy]. apply bool_decide_eq_true in Hxy. exact Hxy.
    + intros (_ & _ & Hall). eapply Forall2_impl; [exact Hall |].
      intros x y Hxy. simpl in Hxy.
      rewrite (bool_decide_eq_true_2 _ Hxy). reflexivity.
  - split; [discriminate |]. intros (_ & _ & Hpaths). exfalso. apply Hlen.
    unfold len.
    rewrite <- (length_fmap MountPath (elems (c_VolumeMounts c1))), Hpaths.
    apply length_fmap.
Qed.

(** X2.  [EqualV1PodContainers] answers true exactly when the two
    containers have the same name, the same image and the same mount paths
    in the same order; a container that mounts the same paths in another
    order, or one more path, is a different container. *)
Theorem EqualV1PodContainers_true_iff (c1 c2 : Container) :
  (EqualV1PodContainers c1 c2 = Some true ↔
   c_Name c1 = c_Name c2 ∧ c_Image c1 = c_Image c2 ∧
   MountPath <$> elems (c_VolumeMounts c1)
   = MountPath <$> elems (c_VolumeMounts c2)) ∧
  (MountPath <$> elems (c_VolumeMounts c1)
   ≠ MountPath <$> elems (c_VolumeMounts c2) →
   EqualV1PodContainers c1 c2 = Some false).
Proof.
  split; [apply EqualV1PodContainers_true |].
  intros Hpaths.
  destruct (EqualV1PodContainers_total c1 c2) as [[|] Hrun]; [| exact Hrun].
  apply EqualV1PodContainers_true in Hrun as (_ & _ & Heq). contradiction.
Qed.

(** ** Pods *)

(** X3.  The fields [EqualV1Pod] depends on, and no others: it answers true
    exactly when the pod IP, the host IP, the service account and the host
    network flag agree, the lists of pod IPs are equal slices, the
    proxy-visibility annotation reads the same, the labels pass
    [MapStringEquals], and the containers agree position by position on
    name, image and mount paths.  The name and namespace of the pod and its
    other annotations play no part. *)
Theorem EqualV1Pod_true_iff (h : heap) (pod1 pod2 : Pod) :
  EqualV1Pod h pod1 pod2 = Some true ↔
  status_PodIP (pod_Status pod1) = status_PodIP (pod_Status pod2) ∧
  HostIP (pod_Status pod1) = HostIP (pod_Status pod2) ∧
  ServiceAccountName (pod_Spec pod1) = ServiceAccountName (pod_Spec pod2) ∧
  HostNetwork (pod_Spec pod1) = HostNetwork (pod_Spec pod2) ∧
  PodIPs (pod_Status pod1) = PodIPs (pod_Status pod2) ∧
  index (view (maps h) (Annotations (pod_ObjectMeta pod1))) ProxyVisibility
  = index (view (maps h) (Annotations (pod_ObjectMeta pod2)))
          ProxyVisibility ∧
  MapStringEquals (view (maps h) (Labels (pod_ObjectMeta pod1)))
                  (view (maps h) (Labels (pod_ObjectMeta pod2))) = true ∧
  Forall2 (λ c1 c2, c_Name c1 = c_Name c2 ∧ c_Image c1 = c_Image c2 ∧
                    MountPath <$> elems (c_VolumeMounts c1)
                    = MountPath <$> elems (c_VolumeMounts c2))
          (elems (Containers (pod_Spec pod1)))
          (elems (Containers (pod_Spec pod2))).
Proof.
  unfold EqualV1Pod.
  destruct (decide (status_PodIP (pod_Status pod1)
                    = status_PodIP (pod_Status pod2))) as [H1|H1];
    [rewrite (bool_decide_eq_true_2 _ H1)
    | rewrite (bool_decide_eq_false_2 _ H1); simpl;
      split; [discriminate | intros (? & _); contradiction]].
  destruct (decide (HostIP (pod_Status pod1) = HostIP (pod_Status pod2)))
    as [H2|H2];
    [rewrite (bool_decide_eq_true_2 _ H2)
    | rewrite (bool_decide_eq_false_2 _ H2); simpl;
      split; [discriminate | intros (_ & ? & _); contradiction]].
  destruct (decide (ServiceAccountName (pod_Spec pod1)
                    = ServiceAccountName (pod_Spec pod2))) as [H3|H3];
    [rewrite (bool_decide_eq_true_2 _ H3)
    | rewrite (bool_decide_eq_false_2 _ H3); simpl;
      split; [discriminate | intros (_ & _ & ? & _); contradiction]].
  destruct (decide (HostNetwork (pod_Spec pod1) = HostNetwork (pod_Spec pod2)))
    as [H4|H4];
    [rewrite (bool_decide_eq_true_2 _ H4)
    | rewrite (bool_decide_eq_false_2 _ H4); simpl;
      split; [discriminate | intros (_ & _ & _ & ? & _); contradiction]].
  simpl.
  destruct (EqualPodIPs (PodIPs (pod_Status pod1)) (PodIPs (pod_Status pod2)))
    as [[|]|] eqn:Hips; simpl.
  - apply EqualPodIPs_true_inv in Hips.
    unfold AnnotationsEqual; simpl.
    destruct (decide (index (view (maps h) (Annotations (pod_ObjectMeta pod1)))
                            ProxyVisibility
                      = index (view (maps h)
                                 (Annotations (pod_ObjectMeta pod2)))
                              ProxyVisibility)) as [Ha|Ha];
      [rewrite (bool_decide_eq_true_2 _ Ha)
      | rewrite (bool_decide_eq_false_2 _ Ha); simpl; split;
        [discriminate | intros (_ & _ & _ & _ & _ & ? & _); contradiction]].
    simpl.
    destruct (MapStringEquals _ _) eqn:Hlabels; simpl;
      [| split; [discriminate
                | intros (_ & _ & _ & _ & _ & _ & ? & _); discriminate]].
    destruct (Nat.eqb_spec (len (Containers (pod_Spec pod1)))
                           (len (Containers (pod_Spec pod2)))) as [Hlen|Hlen];
      simpl.
    + rewrite rangeAll_true_iff by exact Hlen. split.
      * intros Hall. repeat (split; [assumption || reflexivity |]).
        eapply Forall2_impl; [exact Hall |].
        intros c1 c2. apply EqualV1PodContainers_true.
      * intros (_ & _ & _ & _ & _ & _ & _ & Hall).
        eapply Forall2_impl; [exact Hall |].
        intros c1 c2. apply EqualV1PodContainers_true.
    + split; [discriminate |].
      intros (_ & _ & _ & _ & _ & _ & _ & Hall).
      exfalso. apply Hlen. exact (Forall2_length _ _ _ Hall).
  - split; [discriminate |]. intros (_ & _ & _ & _ & Heq & _).
    rewrite Heq, EqualPodIPs_refl in Hips. discriminate.
  - destruct (EqualPodIPs_total (PodIPs (pod_Status pod1))
                                (PodIPs (pod_Status pod2))) as [b Hb].
    congruence.
Qed.

(** ** Nodes *)

(** X4.  The fields [EqualV1Node] depends on, and no others: it answers
    true exactly when the names agree, each of the four Cilium annotations
    reads the same, and the taints agree position by position on key,
    effect, value and instant.  Addresses and pod CIDRs play no part. *)
Theorem EqualV1Node_true_iff (h : heap) (node1 node2 : types_Node) :
  EqualV1Node h node1 node2 = Some true ↔
  Name (tnode_ObjectMeta node1) = Name (tnode_ObjectMeta node2) ∧
  (∀ an, an ∈ [CiliumHostIP; CiliumHostIPv6; V4HealthName; V6HealthName] →
     index (view (maps h) (Annotations (tnode_ObjectMeta node1))) an
     = index (view (maps h) (Annotations (tnode_ObjectMeta node2))) an) ∧
  Forall2 (λ taint1 taint2,
             Key taint1 = Key taint2 ∧ Effect taint1 = Effect taint2 ∧
             Value taint1 = Value taint2 ∧
             metav1_Time_Equal (TimeAdded taint1) (TimeAdded taint2) = true)
          (elems (SpecTaints node1)) (elems (SpecTaints node2)).
Proof.
  unfold EqualV1Node. cbv zeta.
  destruct (decide (Name (tnode_ObjectMeta node1)
                    = Name (tnode_ObjectMeta node2))) as [Hn|Hn];
    [rewrite (bool_decide_eq_true_2 _ Hn)
    | rewrite (bool_decide_eq_false_2 _ Hn); simpl;
      split; [discriminate | intros (? & _); contradiction]].
  cbn [negb].
  destruct (rangeEach _ _) eqn:Hann; cbn [negb].
  - apply rangeEach_true in Hann. rewrite Forall_forall in Hann.
    assert (Htaint : ∀ t2 t1,
              equalTaint t2 t1 = Some true ↔
              Key t1 = Key t2 ∧ Effect t1 = Effect t2 ∧ Value t1 = Value t2 ∧
              metav1_Time_Equal (TimeAdded t1) (TimeAdded t2) = true).
    { intros t2 t1. rewrite equalTaint_true. unfold MatchTaint.
      rewrite andb_true_iff, !bool_decide_eq_true. tauto. }
    destruct (Nat.eqb_spec (len (SpecTaints node1)) (len (SpecTaints node2)))
      as [Hlen|Hlen]; cbn [negb].
    + rewrite rangeAll_true_iff by (symmetry; exact Hlen).
      rewrite <- Forall2_flip. split.
      * intros Hall. split; [exact Hn |]. split.
        -- intros an Han. specialize (Hann an Han).
           apply bool_decide_eq_true in Hann. exact Hann.
        -- eapply Forall2_impl; [exact Hall |].
           intros t1 t2. unfold flip. apply Htaint.
      * intros (_ & _ & Hall). eapply Forall2_impl; [exact Hall |].
        intros t1 t2. unfold flip. apply Htaint.
    + split; [discriminate |]. intros (_ & _ & Hall).
      exfalso. apply Hlen. exact (Forall2_length _ _ _ Hall).
  - split; [discriminate |]. intros (_ & Hall & _).
    assert (Htrue : rangeEach
              (λ an, bool_decide
                 (index (view (maps h) (Annotations (tnode_ObjectMeta node1)))
                        an
                  = index (view (maps h)
                             (Annotations (tnode_ObjectMeta node2))) an))
              [CiliumHostIP; CiliumHostIPv6; V4HealthName; V6HealthName]
              = true).
    { apply rangeEach_true, Forall_forall. intros an Han.
      apply bool_decide_eq_true. apply Hall, Han. }
    congruence.
Qed.

Lemma equalTaint_relocate zone taint :
  equalTaint (relocate zone taint) taint = Some true.
Proof.
  apply equalTaint_true. unfold MatchTaint, relocate; simpl.
  rewrite !bool_decide_eq_true_2 by reflexivity.
  repeat split. destruct (TimeAdded taint) as [t|]; simpl;
    [apply Z.eqb_refl | reflexivity].
Qed.

(** X5.  Times are compared as instants.  A node whose taints are shown in
    another time zone compares equal; a taint without a time against the
    same taint with one compares not equal. *)
Theorem EqualV1Node_instants (h : heap) (node : types_Node) :
  (∀ zone taints,
     EqualV1Node h (withTaints (Some taints) node)
                   (withTaints (Some (relocate zone <$> taints)) node)
     = Some true) ∧
  (∀ t taint rest,
     EqualV1Node h (withTaints (Some (withTimeAdded None taint :: rest)) node)
                   (withTaints (Some (withTimeAdded (Some t) taint :: rest))
                               node)
     = Some false).
Proof.
  split.
  - intros zone taints. unfold EqualV1Node, withTaints. cbv zeta.
    cbn [tnode_ObjectMeta SpecTaints].
    rewrite bool_decide_eq_true_2 by reflexivity.
    rewrite rangeEach_index_refl. unfold len; simpl.
    rewrite length_fmap, Nat.eqb_refl; simpl.
    apply rangeAll_Forall2, Forall2_fmap_l.
    induction taints; constructor;
      [apply equalTaint_relocate | assumption].
  - intros t taint rest. unfold EqualV1Node, withTaints. cbv zeta.
    cbn [tnode_ObjectMeta SpecTaints].
    rewrite bool_decide_eq_true_2 by reflexivity.
    rewrite rangeEach_index_refl. unfold len; simpl.
    rewrite Nat.eqb_refl; simpl.
    unfold equalTaint, MatchTaint; simpl.
    rewrite !bool_decide_eq_true_2 by reflexivity. reflexivity.
Qed.

(** ** Symmetry *)

Lemma metav1_Time_Equal_sym t u :
  metav1_Time_Equal t u = metav1_Time_Equal u t.
Proof. destruct t, u; simpl; try reflexivity. apply Z.eqb_sym. Qed.

Lemma equalTaint_sym taint2 taint1 :
  equalTaint taint2 taint1 = equalTaint taint1 taint2.
Proof.
  unfold equalTaint, MatchTaint.
  rewrite (bool_decide_sym (Key taint1)), (bool_decide_sym (Effect taint1)),
          (bool_decide_sym (Value taint1)), (metav1_Time_Equal_sym _ _).
  reflexivity.
Qed.

Lemma rangeEach_ext {A} (f g : A → bool) xs :
  (∀ x, f x = g x) → rangeEach f xs = rangeEach g xs.
Proof.
  intros Hfg. induction xs as [|x xs IH]; simpl; [reflexivity |].
  rewrite Hfg, IH. reflexivity.
Qed.

Lemma AnnotationsEqual_sym rel (a1 a2 : option (gmap string string)) :
  AnnotationsEqual rel a1 a2 = AnnotationsEqual rel a2 a1.
Proof.
  unfold AnnotationsEqual. apply rangeEach_ext.
  intros an. apply bool_decide_sym.
Qed.

Lemma EqualPodIPs_sym a b : EqualPodIPs a b = EqualPodIPs b a.
Proof.
  unfold EqualPodIPs. rewrite (bool_decide_sym (isNil a)).
  destruct (bool_decide _); simpl; [| reflexivity].
  rewrite (Nat.eqb_sym (len a)).
  destruct (Nat.eqb_spec (len b) (len a)) as [Hlen|_]; simpl;
    [| reflexivity].
  apply rangeAll_flip; [symmetry; exact Hlen |].
  intros x y. rewrite (bool_decide_sym x). reflexivity.
Qed.

Lemma EqualV1PodContainers_sym c1 c2 :
  EqualV1PodContainers c1 c2 = EqualV1PodContainers c2 c1.
Proof.
  destruct (EqualV1PodContainers_total c1 c2) as [b1 H1],
           (EqualV1PodContainers_total c2 c1) as [b2 H2].
  rewrite H1, H2. f_equal.
  destruct b1, b2; try reflexivity.
  - apply EqualV1PodContainers_true in H1 as (? & ? & ?).
    assert (EqualV1PodContainers c2 c1 = Some true) as Ht
      by (apply EqualV1PodContainers_true; auto).
    congruence.
  - apply EqualV1PodContainers_true in H2 as (? & ? & ?).
    assert (EqualV1PodContainers c1 c2 = Some true) as Ht
      by (apply EqualV1PodContainers_true; auto).
    congruence.
Qed.

(** X6.  The comparisons that read nothing but their two arguments give
    the same answer when the arguments are exchanged, the panics
    included. *)
Theorem comparisons_symmetric :
  (∀ np1 np2, EqualV1NetworkPolicy np1 np2 = EqualV1NetworkPolicy np2 np1) ∧
  (∀ ep1 ep2, EqualV1Endpoints ep1 ep2 = EqualV1Endpoints ep2 ep1) ∧
  (∀ ep1 ep2, EqualV1EndpointSlice ep1 ep2 = EqualV1EndpointSlice ep2 ep1) ∧
  (∀ rel anno1 anno2,
     AnnotationsEqual rel anno1 anno2 = AnnotationsEqual rel anno2 anno1) ∧
  (∀ c1 c2, EqualV1PodContainers c1 c2 = EqualV1PodContainers c2 c1) ∧
  (∀ a b, EqualPodIPs a b = EqualPodIPs b a) ∧
  (∀ (h : heap) node1 node2,
     EqualV1Node h node1 node2 = EqualV1Node h node2 node1).
Proof.
  repeat split.
  - intros np1 np2. unfold EqualV1NetworkPolicy, DeepEqual.
    destruct (NetworkPolicy np1) as [k1|], (NetworkPolicy np2) as [k2|];
      simpl; try reflexivity.
    rewrite (bool_decide_sym (Name _)), (bool_decide_sym (Namespace _)),
            (bool_decide_sym (knp_Spec k1)). reflexivity.
  - intros ep1 ep2. unfold EqualV1Endpoints, DeepEqual.
    destruct (Endpoints ep1) as [e1|], (Endpoints ep2) as [e2|];
      simpl; try reflexivity.
    rewrite (bool_decide_sym (Name _)), (bool_decide_sym (Namespace _)),
            (bool_decide_sym (Subsets e1)). reflexivity.
  - intros ep1 ep2. unfold EqualV1EndpointSlice, DeepEqual.
    destruct (EndpointSlice ep1) as [e1|], (EndpointSlice ep2) as [e2|];
      simpl; try reflexivity.
    rewrite (bool_decide_sym (Name _)), (bool_decide_sym (Namespace _)),
            (bool_decide_sym (es_Endpoints e1)),
            (bool_decide_sym (es_Ports e1)). reflexivity.
  - apply AnnotationsEqual_sym.
  - apply EqualV1PodContainers_sym.
  - apply EqualPodIPs_sym.
  - intros h node1 node2. unfold EqualV1Node. cbv zeta.
    rewrite (bool_decide_sym (Name (tnode_ObjectMeta node1))).
    destruct (negb (bool_decide _)); [reflexivity |].
    rewrite (rangeEach_ext _
               (λ an, bool_decide
                  (index (view (maps h)
                            (Annotations (tnode_ObjectMeta node2))) an
                   = index (view (maps h)
                              (Annotations (tnode_ObjectMeta node1))) an)))
      by (intros an; apply bool_decide_sym).
    destruct (negb (rangeEach _ _)); [reflexivity |].
    rewrite (Nat.eqb_sym (len (SpecTaints node1))).
    destruct (Nat.eqb_spec (len (SpecTaints node2)) (len (SpecTaints node1)))
      as [Hlen|_]; simpl; [| reflexivity].
    apply rangeAll_flip; [exact Hlen | apply equalTaint_sym].
Qed.

(** ** Policies with status *)

Lemma view_mapDelete r k (σ : gmap loc (gmap string string)) a :
  view (mapDelete r k σ) a
  = if decide (r = a) then delete k <$> view σ a else view σ a.
Proof.
  unfold view. destruct a as [l|]; simpl.
  - apply lookup_mapDelete.
  - destruct (decide _); reflexivity.
Qed.

Lemma view_after_deletes (σ : gmap loc (gmap string string)) a1 a2 k a :
  a = a1 ∨ a = a2 →
  view (mapDelete a2 k (mapDelete a1 k σ)) a = delete k <$> view σ a.
Proof.
  intros Ha. rewrite !view_mapDelete.
  destruct (decide (a2 = a)), (decide (a1 = a));
    try (destruct Ha; congruence);
    destruct (view σ a); simpl; try reflexivity.
  rewrite delete_delete_eq. reflexivity.
Qed.

Lemma EqualV2CNP_pure_result (cnp1 cnp2 : SlimCNP) (h : heap) l1 l2 c1 c2 :
  slim_CiliumNetworkPolicy cnp1 = Some l1 → cnps h !! l1 = Some c1 →
  slim_CiliumNetworkPolicy cnp2 = Some l2 → cnps h !! l2 = Some c2 →
  EqualV2CNP cnp1 cnp2 h
  = Some (bool_decide (Name (cnp_ObjectMeta c1) = Name (cnp_ObjectMeta c2)) &&
          bool_decide (Namespace (cnp_ObjectMeta c1)
                       = Namespace (cnp_ObjectMeta c2)) &&
          MapStringEquals
            (delete LastAppliedConfigAnnotation
               <$> view (maps h) (Annotations (cnp_ObjectMeta c1)))
            (delete LastAppliedConfigAnnotation
               <$> view (maps h) (Annotations (cnp_ObjectMeta c2))) &&
          DeepEqual (cnp_Spec c1) (cnp_Spec c2) &&
          DeepEqual (cnp_Specs c1) (cnp_Specs c2), h).
Proof.
  intros Hp1 Hc1 Hp2 Hc2.
  unfold EqualV2CNP. rewrite Hp1; simpl. rewrite Hc1; simpl.
  rewrite Hp2; simpl. rewrite Hc2; simpl.
  destruct (bool_decide (Name _ = Name _) && bool_decide (_ = _)); simpl;
    [| reflexivity].
  rewrite maps_restored, set_maps_same.
  rewrite !view_after_deletes by auto. reflexivity.
Qed.

(** [EqualV2CNP] stops on a nil or missing policy, and only then. *)
Lemma EqualV2CNP_None (cnp1 cnp2 : SlimCNP) (h : heap) :
  EqualV2CNP cnp1 cnp2 h = None ↔
  allocated (cnps h) (slim_CiliumNetworkPolicy cnp1) = false ∨
  allocated (cnps h) (slim_CiliumNetworkPolicy cnp2) = false.
Proof.
  unfold EqualV2CNP, allocated.
  destruct (slim_CiliumNetworkPolicy cnp1) as [l1|]; simpl;
    [| split; auto].
  destruct (cnps h !! l1) as [c1|]; simpl; [| split; auto].
  destruct (slim_CiliumNetworkPolicy cnp2) as [l2|]; simpl;
    [| split; auto].
  destruct (cnps h !! l2) as [c2|]; simpl; [| split; auto].
  destruct (negb _); split; try discriminate; intros [?|?]; discriminate.
Qed.

(** X7.  The detour of [EqualV2CNP] through the heap (delete, compare,
    write back) computes what a comparison without side effects would: on
    two policies of the heap the verdict is that of comparing the names,
    the namespaces, copies of the two annotation maps with the last-applied
    configuration left out, the specs and the lists of specs, and the heap
    is left as it was; the status and the type metadata are not read.  The
    call panics exactly when one of the two embedded pointers is nil. *)
Theorem EqualV2CNP_as_pure (cnp1 cnp2 : SlimCNP) (h : heap) :
  (∀ l1 l2 c1 c2,
     slim_CiliumNetworkPolicy cnp1 = Some l1 → cnps h !! l1 = Some c1 →
     slim_CiliumNetworkPolicy cnp2 = Some l2 → cnps h !! l2 = Some c2 →
     EqualV2CNP cnp1 cnp2 h
     = Some (bool_decide (Name (cnp_ObjectMeta c1)
                          = Name (cnp_ObjectMeta c2)) &&
             bool_decide (Namespace (cnp_ObjectMeta c1)
                          = Namespace (cnp_ObjectMeta c2)) &&
             MapStringEquals
               (delete LastAppliedConfigAnnotation
                  <$> view (maps h) (Annotations (cnp_ObjectMeta c1)))
               (delete LastAppliedConfigAnnotation
                  <$> view (maps h) (Annotations (cnp_ObjectMeta c2))) &&
             DeepEqual (cnp_Spec c1) (cnp_Spec c2) &&
             DeepEqual (cnp_Specs c1) (cnp_Specs c2), h)) ∧
  (EqualV2CNP cnp1 cnp2 h = None ↔
   allocated (cnps h) (slim_CiliumNetworkPolicy cnp1) = false ∨
   allocated (cnps h) (slim_CiliumNetworkPolicy cnp2) = false).
Proof.
  split.
  - intros l1 l2 c1 c2 Hp1 Hc1 Hp2 Hc2.
    exact (EqualV2CNP_pure_result cnp1 cnp2 h l1 l2 c1 c2 Hp1 Hc1 Hp2 Hc2).
  - apply EqualV2CNP_None.
Qed.

Lemma MapStringEquals_sym (m1 m2 : option (gmap string string)) :
  MapStringEquals m1 m2 = MapStringEquals m2 m1.
Proof.
  unfold MapStringEquals.
  rewrite (bool_decide_sym (isNil m1)), (bool_decide_sym (entries m1)).
  reflexivity.
Qed.

(** X8.  The comparisons that go through [MapStringEquals] are symmetric
    too: pods, namespaces, and policies with status, for which the heap
    left behind is the same as well. *)
Theorem comparisons_with_maps_symmetric (h : heap) :
  (∀ pod1 pod2, EqualV1Pod h pod1 pod2 = EqualV1Pod h pod2 pod1) ∧
  (∀ ns1 ns2, EqualV1Namespace h ns1 ns2 = EqualV1Namespace h ns2 ns1) ∧
  (∀ cnp1 cnp2, EqualV2CNP cnp1 cnp2 h = EqualV2CNP cnp2 cnp1 h).
Proof.
  split; [| split].
  - intros pod1 pod2. unfold EqualV1Pod.
    rewrite (bool_decide_sym (status_PodIP (pod_Status pod1))),
            (bool_decide_sym (HostIP (pod_Status pod1))),
            (bool_decide_sym (ServiceAccountName (pod_Spec pod1))),
            (bool_decide_sym (HostNetwork (pod_Spec pod1))).
    destruct (_ || _); [reflexivity |].
    rewrite (EqualPodIPs_sym (PodIPs (pod_Status pod1))).
    destruct (EqualPodIPs _ _) as [[|]|]; simpl; try reflexivity.
    rewrite (AnnotationsEqual_sym _
               (view (maps h) (Annotations (pod_ObjectMeta pod1)))).
    destruct (AnnotationsEqual _ _ _); simpl; [| reflexivity].
    rewrite (MapStringEquals_sym
               (view (maps h) (Labels (pod_ObjectMeta pod1)))).
    destruct (MapStringEquals _ _); simpl; [| reflexivity].
    rewrite (Nat.eqb_sym (len (Containers (pod_Spec pod1)))).
    destruct (Nat.eqb_spec (len (Containers (pod_Spec pod2)))
                           (len (Containers (pod_Spec pod1)))) as [Hlen|_];
      simpl; [| reflexivity].
    apply rangeAll_flip; [symmetry; exact Hlen |].
    apply EqualV1PodContainers_sym.
  - intros ns1 ns2. unfold EqualV1Namespace.
    rewrite (bool_decide_sym (Name (tns_ObjectMeta ns1))),
            (MapStringEquals_sym
               (view (maps h) (Labels (tns_ObjectMeta ns1)))).
    reflexivity.
  - intros cnp1 cnp2.
    destruct (slim_CiliumNetworkPolicy cnp1) as [l1|] eqn:Hp1;
      [| transitivity (@None (bool * heap)); [| symmetry];
         apply EqualV2CNP_None; rewrite Hp1; auto].
    destruct (cnps h !! l1) as [c1|] eqn:Hc1;
      [| transitivity (@None (bool * heap)); [| symmetry];
         apply EqualV2CNP_None; rewrite Hp1; unfold allocated; simpl;
         rewrite Hc1; auto].
    destruct (slim_CiliumNetworkPolicy cnp2) as [l2|] eqn:Hp2;
      [| transitivity (@None (bool * heap)); [| symmetry];
         apply EqualV2CNP_None; rewrite Hp2; auto].
    destruct (cnps h !! l2) as [c2|] eqn:Hc2;
      [| transitivity (@None (bool * heap)); [| symmetry];
         apply EqualV2CNP_None; rewrite Hp2; unfold allocated; simpl;
         rewrite Hc2; auto].
    rewrite (EqualV2CNP_pure_result cnp1 cnp2 h l1 l2 c1 c2) by assumption.
    rewrite (EqualV2CNP_pure_result cnp2 cnp1 h l2 l1 c2 c1) by assumption.
    unfold DeepEqual.
    rewrite (bool_decide_sym (Name (cnp_ObjectMeta c1))),
            (bool_decide_sym (Namespace (cnp_ObjectMeta c1))),
            (bool_decide_sym (cnp_Spec c1)), (bool_decide_sym (cnp_Specs c1)),
            (MapStringEquals_sym
               (delete LastAppliedConfigAnnotation
                  <$> view (maps h) (Annotations (cnp_ObjectMeta c1)))).
    reflexivity.
Qed.

(** ** Wrapped Kubernetes objects *)

(** X9.  The comparisons of network policies, endpoints and endpoint
    slices panic exactly when one of the two wrappers holds a nil pointer.
    Otherwise they answer true exactly when name and namespace agree and
    the compared bodies are equal: the spec of a policy, the subsets of
    endpoints, the endpoints and the ports of a slice.  The address type
    of a slice and the type metadata are not compared. *)
Theorem wrapped_comparisons :
  (∀ np1 np2,
     (EqualV1NetworkPolicy np1 np2 = None ↔
      NetworkPolicy np1 = None ∨ NetworkPolicy np2 = None) ∧
     ∀ k1 k2, NetworkPolicy np1 = Some k1 → NetworkPolicy np2 = Some k2 →
       (EqualV1NetworkPolicy np1 np2 = Some true ↔
        Name (knp_ObjectMeta k1) = Name (knp_ObjectMeta k2) ∧
        Namespace (knp_ObjectMeta k1) = Namespace (knp_ObjectMeta k2) ∧
        knp_Spec k1 = knp_Spec k2)) ∧
  (∀ ep1 ep2,
     (EqualV1Endpoints ep1 ep2 = None ↔
      Endpoints ep1 = None ∨ Endpoints ep2 = None) ∧
     ∀ e1 e2, Endpoints ep1 = Some e1 → Endpoints ep2 = Some e2 →
       (EqualV1Endpoints ep1 ep2 = Some true ↔
        Name (kep_ObjectMeta e1) = Name (kep_ObjectMeta e2) ∧
        Namespace (kep_ObjectMeta e1) = Namespace (kep_ObjectMeta e2) ∧
        Subsets e1 = Subsets e2)) ∧
  (∀ ep1 ep2,
     (EqualV1EndpointSlice ep1 ep2 = None ↔
      EndpointSlice ep1 = None ∨ EndpointSlice ep2 = None) ∧
     ∀ e1 e2, EndpointSlice ep1 = Some e1 → EndpointSlice ep2 = Some e2 →
       (EqualV1EndpointSlice ep1 ep2 = Some true ↔
        Name (kes_ObjectMeta e1) = Name (kes_ObjectMeta e2) ∧
        Namespace (kes_ObjectMeta e1) = Namespace (kes_ObjectMeta e2) ∧
        es_Endpoints e1 = es_Endpoints e2 ∧ es_Ports e1 = es_Ports e2)).
Proof.
  split; [| split].
  - intros np1 np2. unfold EqualV1NetworkPolicy, DeepEqual. split.
    + destruct (NetworkPolicy np1), (NetworkPolicy np2); simpl;
        split; try discriminate; auto; intros [?|?]; discriminate.
    + intros k1 k2 -> ->; simpl.
      split; [intros [= Hb] | intros Hb; f_equal];
        rewrite !andb_true_iff, !bool_decide_eq_true in *; tauto.
  - intros ep1 ep2. unfold EqualV1Endpoints, DeepEqual. split.
    + destruct (Endpoints ep1), (Endpoints ep2); simpl;
        split; try discriminate; auto; intros [?|?]; discriminate.
    + intros e1 e2 -> ->; simpl.
      split; [intros [= Hb] | intros Hb; f_equal];
        rewrite !andb_true_iff, !bool_decide_eq_true in *; tauto.
  - intros ep1 ep2. unfold EqualV1EndpointSlice, DeepEqual. split.
    + destruct (EndpointSlice ep1), (EndpointSlice ep2); simpl;
        split; try discriminate; auto; intros [?|?]; discriminate.
    + intros e1 e2 -> ->; simpl.
      split; [intros [= Hb] | intros Hb; f_equal];
        rewrite !andb_true_iff, !bool_decide_eq_true in *; tauto.
Qed.

(** ** Annotations on an allow-list, continued *)

(** X10.  On a fixed allow-list [AnnotationsEqual] is an equivalence
    between annotation maps (reflexive, symmetric, transitive); a nil or
    empty allow-list relates any two maps, and a concatenated allow-list
    amounts to both of its parts. *)
Theorem AnnotationsEqual_equivalence (rel : option (list string))
  (a b c : option (gmap string string)) :
  AnnotationsEqual rel a a = true ∧
  AnnotationsEqual rel a b = AnnotationsEqual rel b a ∧
  (AnnotationsEqual rel a b = true → AnnotationsEqual rel b c = true →
   AnnotationsEqual rel a c = true) ∧
  AnnotationsEqual None a b = true ∧
  AnnotationsEqual (Some []) a b = true ∧
  (∀ l1 l2 : list string,
     AnnotationsEqual (Some (l1 ++ l2)%list) a b
     = AnnotationsEqual (Some l1) a b && AnnotationsEqual (Some l2) a b).
Proof.
  split; [apply AnnotationsEqual_refl |].
  split; [apply AnnotationsEqual_sym |].
  split; [| split; [reflexivity | split; [reflexivity |]]].
  - unfold AnnotationsEqual. rewrite !rangeEach_true, !Forall_forall.
    intros Hab Hbc an Han. specialize (Hab an Han). specialize (Hbc an Han).
    apply bool_decide_eq_true in Hab, Hbc. apply bool_decide_eq_true.
    congruence.
  - intros l1 l2. unfold AnnotationsEqual; simpl.
    induction l1 as [|an l1 IH]; simpl; [reflexivity |].
    destruct (bool_decide _); [exact IH | reflexivity].
Qed.

End ComparisonProperties.

Section ServiceProperties.
Context `{Payloads}.
Variable ParseService :
  heap → types_Service → NodeAddressing → ServiceID * option ServiceInfo.

(** X11.  [EqualV1Services] panics exactly when one of the two wrappers
    holds a nil pointer.  When the annotations of the two services do not
    pass [MapStringEquals] it answers false; and so it does when the
    parser derives two different identifiers. *)
Theorem EqualV1Services_gates (h : heap) (svc1 svc2 : types_Service)
  (nodeAddressing : NodeAddressing) :
  (EqualV1Services ParseService h svc1 svc2 nodeAddressing = None ↔
   Service svc1 = None ∨ Service svc2 = None) ∧
  (∀ k1 k2, Service svc1 = Some k1 → Service svc2 = Some k2 →
     (MapStringEquals (view (maps h) (Annotations (ksvc_ObjectMeta k1)))
                      (view (maps h) (Annotations (ksvc_ObjectMeta k2)))
      = false →
      EqualV1Services ParseService h svc1 svc2 nodeAddressing = Some false) ∧
     (fst (ParseService h svc1 nodeAddressing)
      ≠ fst (ParseService h svc2 nodeAddressing) →
      EqualV1Services ParseService h svc1 svc2 nodeAddressing = Some false)).
Proof.
  unfold EqualV1Services. split.
  - destruct (Service svc1) as [k1|], (Service svc2) as [k2|]; simpl;
      try (split; [auto | reflexivity]).
    split; [| intros [?|?]; discriminate].
    destruct (negb _); [discriminate |].
    destruct (ParseService h svc1 nodeAddressing),
             (ParseService h svc2 nodeAddressing).
    destruct (negb _); discriminate.
  - intros k1 k2 -> ->; simpl. split.
    + intros ->. reflexivity.
    + intros Hid. destruct (negb _); [reflexivity |].
      destruct (ParseService h svc1 nodeAddressing) as [id1 info1],
               (ParseService h svc2 nodeAddressing) as [id2 info2].
      simpl in Hid. rewrite (bool_decide_eq_false_2 _ Hid). reflexivity.
Qed.

End ServiceProperties.

(** * Further properties of the conversions *)

Section ConversionProperties.
Context `{Payloads}.

(** ** Tombstones *)

(** X12.  The conversions that only wrap a pointer treat a deletion
    wrapper like [ConvertToNetworkPolicy] does: a payload of the raw type
    is converted as it would be on its own and wrapped again under the
    same key, any other payload leaves the wrapper as it is. *)
Theorem wrapping_conversions_tombstone (key : string) (payload : obj) :
  ((∀ svc, ConvertToK8sService (DeletedFinalStateUnknown key (Raw_Service svc))
           = DeletedFinalStateUnknown key
               (ConvertToK8sService (Raw_Service svc))) ∧
   ((∀ svc, payload ≠ Raw_Service svc) →
    ConvertToK8sService (DeletedFinalStateUnknown key payload)
    = DeletedFinalStateUnknown key payload)) ∧
  ((∀ eps, ConvertToK8sEndpoints
             (DeletedFinalStateUnknown key (Raw_Endpoints eps))
           = DeletedFinalStateUnknown key
               (ConvertToK8sEndpoints (Raw_Endpoints eps))) ∧
   ((∀ eps, payload ≠ Raw_Endpoints eps) →
    ConvertToK8sEndpoints (DeletedFinalStateUnknown key payload)
    = DeletedFinalStateUnknown key payload)) ∧
  ((∀ eps, ConvertToK8sEndpointSlice
             (DeletedFinalStateUnknown key (Raw_EndpointSlice eps))
           = DeletedFinalStateUnknown key
               (ConvertToK8sEndpointSlice (Raw_EndpointSlice eps))) ∧
   ((∀ eps, payload ≠ Raw_EndpointSlice eps) →
    ConvertToK8sEndpointSlice (DeletedFinalStateUnknown key payload)
    = DeletedFinalStateUnknown key payload)) ∧
  ((∀ cnp, ConvertToCNPWithStatus (DeletedFinalStateUnknown key (Raw_CNP cnp))
           = DeletedFinalStateUnknown key
               (ConvertToCNPWithStatus (Raw_CNP cnp))) ∧
   ((∀ cnp, payload ≠ Raw_CNP cnp) →
    ConvertToCNPWithStatus (DeletedFinalStateUnknown key payload)
    = DeletedFinalStateUnknown key payload)).
Proof.
  repeat split; try (intros Hne; destruct payload; try reflexivity;
                     exfalso; eapply Hne; reflexivity).
Qed.

(** The result of a conversion, wrapped again under a key. *)
Lemma rewrap_bind {A} (key : string) (wrap : A → obj)
  (r : option (A * heap)) :
  (r ≫= λ '(t, h'), Some (DeletedFinalStateUnknown key (wrap t), h'))
  = (λ '(N, h'), (DeletedFinalStateUnknown key N, h'))
      <$> (r ≫= λ '(t, h'), Some (wrap t, h')).
Proof. destruct r as [[t h']|]; reflexivity. Qed.

(** X13.  The conversions that read or clear their source treat a
    deletion wrapper alike: on a payload of the raw type the result, the
    heap left behind and the panics are those of converting the payload on
    its own, the result being wrapped again under the same key; on any
    other payload the wrapper comes back and the heap is untouched. *)
Theorem clearing_conversions_tombstone (key : string) (payload : obj)
  (h : heap) :
  let rewrap := fmap (λ '(N, h'), (DeletedFinalStateUnknown key N, h')) in
  ((∀ p, ConvertToCCNPWithStatus
           (DeletedFinalStateUnknown key (Raw_CCNP p)) h
         = rewrap (ConvertToCCNPWithStatus (Raw_CCNP p) h)) ∧
   ((∀ p, payload ≠ Raw_CCNP p) →
    ConvertToCCNPWithStatus (DeletedFinalStateUnknown key payload) h
    = Some (DeletedFinalStateUnknown key payload, h))) ∧
  ((∀ p, ConvertToCNP (DeletedFinalStateUnknown key (Raw_CNP p)) h
         = rewrap (ConvertToCNP (Raw_CNP p) h)) ∧
   ((∀ p, payload ≠ Raw_CNP p) →
    ConvertToCNP (DeletedFinalStateUnknown key payload) h
    = Some (DeletedFinalStateUnknown key payload, h))) ∧
  ((∀ p, ConvertToCCNP (DeletedFinalStateUnknown key (Raw_CCNP p)) h
         = rewrap (ConvertToCCNP (Raw_CCNP p) h)) ∧
   ((∀ p, payload ≠ Raw_CCNP p) →
    ConvertToCCNP (DeletedFinalStateUnknown key payload) h
    = Some (DeletedFinalStateUnknown key payload, h))) ∧
  ((∀ p, ConvertToNode (DeletedFinalStateUnknown key (Raw_Node p)) h
         = rewrap (ConvertToNode (Raw_Node p) h)) ∧
   ((∀ p, payload ≠ Raw_Node p) →
    ConvertToNode (DeletedFinalStateUnknown key payload) h
    = Some (DeletedFinalStateUnknown key payload, h))) ∧
  ((∀ p, ConvertToNamespace
           (DeletedFinalStateUnknown key (Raw_Namespace p)) h
         = rewrap (ConvertToNamespace (Raw_Namespace p) h)) ∧
   ((∀ p, payload ≠ Raw_Namespace p) →
    ConvertToNamespace (DeletedFinalStateUnknown key payload) h
    = Some (DeletedFinalStateUnknown key payload, h))).
Proof.
  intros rewrap.
  repeat split;
    try (intros Hne; destruct payload; try reflexivity;
         exfalso; eapply Hne; reflexivity);
    intros p; simpl; unfold rewrap.
  - apply (rewrap_bind key (λ t, Slim_CNP (Some t))).
  - apply (rewrap_bind key (λ t, Slim_CNP (Some t))).
  - apply (rewrap_bind key (λ t, Slim_CNP (Some t))).
  - apply (rewrap_bind key (λ t, Slim_Node (Some t))).
  - apply (rewrap_bind key (λ t, Slim_Namespace (Some t))).
Qed.

(** ** Running a conversion on its own result *)

Ltac run_conversion Hrun :=
  repeat match type of Hrun with
         | context [?r ≫= _] =>
             destruct r as [[? ?]|]; simpl in Hrun; [| discriminate Hrun]
         end;
  injection Hrun as <- <-.

Lemma ConvertToCiliumEndpoint_idem `{EndpointPayloads} (o : endpointObj)
  (σ : gmap loc cilium_v2_CiliumEndpoint) N σ' :
  ConvertToCiliumEndpoint o σ = Some (N, σ') →
  ConvertToCiliumEndpoint N σ' = Some (N, σ').
Proof.
  intros Hrun. destruct o as [p|p|key payload|d]; simpl in Hrun.
  - run_conversion Hrun. reflexivity.
  - injection Hrun as <- <-. reflexivity.
  - destruct payload; simpl in Hrun;
      try (injection Hrun as <- <-; reflexivity).
    run_conversion Hrun. reflexivity.
  - injection Hrun as <- <-. reflexivity.
Qed.

(** X14.  Every conversion is idempotent, the twelve of them: given its
    own result, on the heap it left, it returns that result and leaves the
    heap alone.  A slim object, or a wrapper around one, is never converted
    a second time. *)
Theorem conversions_idempotent `{EndpointPayloads} :
  (∀ o, ConvertToNetworkPolicy (ConvertToNetworkPolicy o)
        = ConvertToNetworkPolicy o) ∧
  (∀ o, ConvertToK8sService (ConvertToK8sService o) = ConvertToK8sService o) ∧
  (∀ o, ConvertToK8sEndpoints (ConvertToK8sEndpoints o)
        = ConvertToK8sEndpoints o) ∧
  (∀ o, ConvertToK8sEndpointSlice (ConvertToK8sEndpointSlice o)
        = ConvertToK8sEndpointSlice o) ∧
  (∀ o, ConvertToCNPWithStatus (ConvertToCNPWithStatus o)
        = ConvertToCNPWithStatus o) ∧
  (∀ o, ConvertToCiliumNode (ConvertToCiliumNode o)
        = ConvertToCiliumNode o) ∧
  (∀ o (h : heap) N h',
     ConvertToCCNPWithStatus o h = Some (N, h') →
     ConvertToCCNPWithStatus N h' = Some (N, h')) ∧
  (∀ o (h : heap) N h',
     ConvertToCNP o h = Some (N, h') → ConvertToCNP N h' = Some (N, h')) ∧
  (∀ o (h : heap) N h',
     ConvertToCCNP o h = Some (N, h') → ConvertToCCNP N h' = Some (N, h')) ∧
  (∀ o (h : heap) N h',
     ConvertToNode o h = Some (N, h') → ConvertToNode N h' = Some (N, h')) ∧
  (∀ o (h : heap) N h',
     ConvertToNamespace o h = Some (N, h') →
     ConvertToNamespace N h' = Some (N, h')) ∧
  (∀ (o : endpointObj) (σ : gmap loc cilium_v2_CiliumEndpoint) N σ',
     ConvertToCiliumEndpoint o σ = Some (N, σ') →
     ConvertToCiliumEndpoint N σ' = Some (N, σ')).
Proof.
  repeat split;
    try (intros o; destruct o as [| | | | | | | | | | | | | | | | | | |
                                  key payload |];
         try reflexivity; destruct payload; reflexivity);
    try (apply ConvertToCiliumEndpoint_idem);
    intros o h N h' Hrun;
    destruct o as [| | | | | | | | | | | | | | | | | | | key payload |];
    simpl in Hrun;
    try (injection Hrun as <- <-; reflexivity);
    try (run_conversion Hrun; reflexivity);
    destruct payload; simpl in Hrun;
    try (injection Hrun as <- <-; reflexivity);
    run_conversion Hrun; reflexivity.
Qed.

(** ** What a conversion leaves alone *)

Lemma slimOfCCNPWithStatus_maps p (h : heap) t h' :
  slimOfCCNPWithStatus p h = Some (t, h') → maps h' = maps h.
Proof.
  unfold slimOfCCNPWithStatus. intros Hrun.
  destruct p as [l|]; simpl in Hrun; [| discriminate].
  destruct (ccnps h !! l) as [cc|]; simpl in Hrun; [| discriminate].
  destruct (ccnp_CiliumNetworkPolicy cc) as [lc|]; simpl in Hrun;
    [| discriminate].
  destruct (cnps h !! lc); simpl in Hrun; [| discriminate].
  injection Hrun as _ <-. reflexivity.
Qed.

Lemma slimOfCCNP_maps p (h : heap) t h' :
  slimOfCCNP p h = Some (t, h') → maps h' = maps h.
Proof.
  unfold slimOfCCNP. intros Hrun.
  destruct p as [l|]; simpl in Hrun; [| discriminate].
  destruct (ccnps h !! l) as [cc|]; simpl in Hrun; [| discriminate].
  destruct (ccnp_CiliumNetworkPolicy cc) as [lc|]; simpl in Hrun;
    [| discriminate].
  destruct (cnps h !! lc); simpl in Hrun; [| discriminate].
  injection Hrun as _ <-. reflexivity.
Qed.

Lemma slimOfCNP_maps p (h : heap) t h' :
  slimOfCNP p h = Some (t, h') → maps h' = maps h.
Proof.
  unfold slimOfCNP. intros Hrun.
  destruct p as [l|]; simpl in Hrun; [| discriminate].
  destruct (cnps h !! l); simpl in Hrun; [| discriminate].
  injection Hrun as _ <-. reflexivity.
Qed.

Lemma slimOfNode_maps p (h : heap) t h' :
  slimOfNode p h = Some (t, h') → maps h' = maps h.
Proof.
  unfold slimOfNode. intros Hrun.
  destruct p as [l|]; simpl in Hrun; [| discriminate].
  destruct (nodes h !! l); simpl in Hrun; [| discriminate].
  injection Hrun as _ <-. reflexivity.
Qed.

Lemma slimOfNamespace_maps p (h : heap) t h' :
  slimOfNamespace p h = Some (t, h') → maps h' = maps h.
Proof.
  unfold slimOfNamespace. intros Hrun.
  destruct p as [l|]; simpl in Hrun; [| discriminate].
  destruct (namespaces h !! l); simpl in Hrun; [| discriminate].
  injection Hrun as _ <-. reflexivity.
Qed.

Ltac frame_conversion Hrun lem :=
  match type of Hrun with
  | context [?r ≫= _] =>
      let E := fresh "E" in
      destruct r as [[? ?]|] eqn:E; simpl in Hrun; [| discriminate Hrun];
      injection Hrun as _ <-; exact (lem _ _ _ _ E)
  end.

(** X15.  No conversion writes to a label or annotation map: whatever the
    input, the maps of the heap it leaves are those of the heap it was
    given.  Clearing a source drops its references to the maps, which the
    slim object now holds; the maps themselves are shared, not copied. *)
Theorem conversions_keep_maps (o : obj) (h : heap) (N : obj) (h' : heap) :
  (ConvertToCCNPWithStatus o h = Some (N, h') → maps h' = maps h) ∧
  (ConvertToCNP o h = Some (N, h') → maps h' = maps h) ∧
  (ConvertToCCNP o h = Some (N, h') → maps h' = maps h) ∧
  (ConvertToNode o h = Some (N, h') → maps h' = maps h) ∧
  (ConvertToNamespace o h = Some (N, h') → maps h' = maps h).
Proof.
  repeat split; intros Hrun;
    destruct o as [| | | | | | | | | | | | | | | | | | | key payload |];
    simpl in Hrun;
    try (injection Hrun as _ <-; reflexivity);
    try (frame_conversion Hrun slimOfCCNPWithStatus_maps);
    try (frame_conversion Hrun slimOfCNP_maps);
    try (frame_conversion Hrun slimOfCCNP_maps);
    try (frame_conversion Hrun slimOfNode_maps);
    try (frame_conversion Hrun slimOfNamespace_maps);
    destruct payload; simpl in Hrun;
    try (injection Hrun as _ <-; reflexivity);
    try (frame_conversion Hrun slimOfCCNPWithStatus_maps);
    try (frame_conversion Hrun slimOfCNP_maps);
    try (frame_conversion Hrun slimOfCCNP_maps);
    try (frame_conversion Hrun slimOfNode_maps);
    try (frame_conversion Hrun slimOfNamespace_maps).
Qed.

(** ** Clearing the source *)

(** X16.  [ConvertToNode] on a node of the heap returns a slim node with
    the type and object metadata, the addresses, the pod CIDRs and the
    taints of the source, and leaves the source equal to the zero node;
    no other node and no other part of the heap changes.  Run again on the
    same pointer it returns the slim image of the zero node. *)
Theorem ConvertToNode_extracts_and_clears (l : loc) (h : heap) (n : v1_Node) :
  nodes h !! l = Some n →
  ∃ h', ConvertToNode (Raw_Node (Some l)) h
        = Some (Slim_Node
                  (Some (mkNode (node_TypeMeta n) (node_ObjectMeta n)
                           (Addresses (node_Status n)) (PodCIDR (node_Spec n))
                           (PodCIDRs (node_Spec n)) (Taints (node_Spec n)))),
                h') ∧
        nodes h' !! l = Some zero_v1_Node ∧
        (∀ l', l' ≠ l → nodes h' !! l' = nodes h !! l') ∧
        maps h' = maps h ∧ cnps h' = cnps h ∧ ccnps h' = ccnps h ∧
        namespaces h' = namespaces h ∧
        ConvertToNode (Raw_Node (Some l)) h'
        = Some (Slim_Node
                  (Some (mkNode zeroTypeMeta zeroObjectMeta None EmptyString
                                None None)), h').
Proof.
  intros Hn. unfold ConvertToNode, slimOfNode; simpl. rewrite Hn; simpl.
  eexists. split; [reflexivity |]. simpl.
  split; [apply lookup_insert_eq |].
  split; [intros l' Hne; apply lookup_insert_ne; congruence |].
  repeat (split; [reflexivity |]).
  rewrite lookup_insert_eq; simpl. unfold set_nodes; simpl.
  rewrite insert_insert_eq. reflexivity.
Qed.

(** X17.  [ConvertToNamespace] on a namespace of the heap returns a slim
    namespace with the type and object metadata of the source, and leaves
    the source equal to the zero namespace; no other namespace and no
    other part of the heap changes. *)
Theorem ConvertToNamespace_extracts_and_clears (l : loc) (h : heap)
  (n : v1_Namespace) :
  namespaces h !! l = Some n →
  ∃ h', ConvertToNamespace (Raw_Namespace (Some l)) h
        = Some (Slim_Namespace
                  (Some (mkNamespace (ns_TypeMeta n) (ns_ObjectMeta n))), h') ∧
        namespaces h' !! l = Some zero_v1_Namespace ∧
        (∀ l', l' ≠ l → namespaces h' !! l' = namespaces h !! l') ∧
        maps h' = maps h ∧ cnps h' = cnps h ∧ ccnps h' = ccnps h ∧
        nodes h' = nodes h.
Proof.
  intros Hn. unfold ConvertToNamespace, slimOfNamespace; simpl.
  rewrite Hn; simpl.
  eexists. split; [reflexivity |]. simpl.
  split; [apply lookup_insert_eq |].
  split; [intros l' Hne; apply lookup_insert_ne; congruence |].
  repeat split.
Qed.

Lemma fresh_cnp_None (m : gmap loc CiliumNetworkPolicy) :
  m !! fresh (dom m) = None.
Proof. apply not_elem_of_dom, is_fresh. Qed.

(** X18.  [ConvertToCNP] on a policy of the heap returns a slim policy
    around a new policy, at a location that was free, which carries the
    type and object metadata, the spec and the specs of the source and a
    zero status; the source is left equal to the zero policy, and no other
    policy changes. *)
Theorem ConvertToCNP_copies_and_clears (l : loc) (h : heap)
  (c : CiliumNetworkPolicy) :
  cnps h !! l = Some c →
  ∃ n h', ConvertToCNP (Raw_CNP (Some l)) h
          = Some (Slim_CNP (Some (mkSlimCNP (Some n))), h') ∧
          cnps h !! n = None ∧
          cnps h' !! n
          = Some (mkCNP (cnp_TypeMeta c) (cnp_ObjectMeta c) (cnp_Spec c)
                        (cnp_Specs c) zeroStatus) ∧
          cnps h' !! l = Some zeroCiliumNetworkPolicy ∧
          (∀ l', l' ≠ l → l' ≠ n → cnps h' !! l' = cnps h !! l') ∧
          ccnps h' = ccnps h ∧ nodes h' = nodes h ∧
          namespaces h' = namespaces h.
Proof.
  intros Hc. unfold ConvertToCNP, slimOfCNP, newCNP; simpl.
  rewrite Hc; simpl.
  eexists _, _. split; [reflexivity |]. simpl.
  split; [apply fresh_cnp_None |].
  split; [rewrite lookup_insert_ne
            by (symmetry; eapply fresh_cnp_lookup; eauto);
          apply lookup_insert_eq |].
  split; [apply lookup_insert_eq |].
  split; [| repeat split].
  intros l' Hl Hn. rewrite !lookup_insert_ne by congruence. reflexivity.
Qed.

(** X19.  [ConvertToCCNP] on a cluster-wide policy of the heap returns a
    slim policy around a new policy, at a location that was free, which
    carries the type and object metadata, the spec and the specs found
    through the embedded pointer and a zero status: neither the status of
    the cluster-wide policy nor that of the embedded policy is kept.  The
    embedded policy itself is left as it was; the cluster-wide policy is
    left equal to the zero value, and no other one changes. *)
Theorem ConvertToCCNP_copies_and_clears (l : loc) (h : heap) cc lc c :
  ccnps h !! l = Some cc →
  ccnp_CiliumNetworkPolicy cc = Some lc →
  cnps h !! lc = Some c →
  ∃ n h', ConvertToCCNP (Raw_CCNP (Some l)) h
          = Some (Slim_CNP (Some (mkSlimCNP (Some n))), h') ∧
          cnps h !! n = None ∧
          cnps h' !! n
          = Some (mkCNP (cnp_TypeMeta c) (cnp_ObjectMeta c) (cnp_Spec c)
                        (cnp_Specs c) zeroStatus) ∧
          (∀ l', l' ≠ n → cnps h' !! l' = cnps h !! l') ∧
          cnps h' !! lc = Some c ∧
          ccnps h' !! l = Some zeroCiliumClusterwideNetworkPolicy ∧
          (∀ l', l' ≠ l → ccnps h' !! l' = ccnps h !! l') ∧
          nodes h' = nodes h ∧ namespaces h' = namespaces h.
Proof.
  intros Hcc Hlc Hc. unfold ConvertToCCNP, slimOfCCNP, newCNP; simpl.
  rewrite Hcc; simpl. rewrite Hlc; simpl. rewrite Hc; simpl.
  eexists _, _. split; [reflexivity |]. simpl.
  split; [apply fresh_cnp_None |].
  split; [apply lookup_insert_eq |].
  split; [intros l' Hn; apply lookup_insert_ne; congruence |].
  split; [rewrite lookup_insert_ne
            by (eapply fresh_cnp_lookup; eauto); exact Hc |].
  split; [apply lookup_insert_eq |].
  split; [intros l' Hl; apply lookup_insert_ne; congruence |].
  split; reflexivity.
Qed.

(** ** Nil pointers *)

(** X20.  A nil pointer of the raw type is still a value of that type.  The
    conversions that read their source panic on it, alone or inside a
    deletion wrapper, and so does [ConvertToCCNPWithStatus] and
    [ConvertToCCNP] on a cluster-wide policy whose embedded pointer is
    nil. *)
Theorem clearing_conversions_nil (key : string) (h : heap) :
  ConvertToNode (Raw_Node None) h = None ∧
  ConvertToNode (DeletedFinalStateUnknown key (Raw_Node None)) h = None ∧
  ConvertToNamespace (Raw_Namespace None) h = None ∧
  ConvertToNamespace (DeletedFinalStateUnknown key (Raw_Namespace None)) h
  = None ∧
  ConvertToCNP (Raw_CNP None) h = None ∧
  ConvertToCNP (DeletedFinalStateUnknown key (Raw_CNP None)) h = None ∧
  ConvertToCCNP (Raw_CCNP None) h = None ∧
  ConvertToCCNP (DeletedFinalStateUnknown key (Raw_CCNP None)) h = None ∧
  ConvertToCCNPWithStatus (Raw_CCNP None) h = None ∧
  ConvertToCCNPWithStatus (DeletedFinalStateUnknown key (Raw_CCNP None)) h
  = None ∧
  (∀ l cc, ccnps h !! l = Some cc → ccnp_CiliumNetworkPolicy cc = None →
     ConvertToCCNPWithStatus (Raw_CCNP (Some l)) h = None ∧
     ConvertToCCNP (Raw_CCNP (Some l)) h = None).
Proof.
  repeat (split; [reflexivity |]).
  intros l cc Hcc Hnil.
  unfold ConvertToCCNPWithStatus, slimOfCCNPWithStatus,
         ConvertToCCNP, slimOfCCNP; simpl.
  rewrite Hcc; simpl. rewrite Hnil; simpl. split; reflexivity.
Qed.

(** X21.  The conversions that only wrap do not look at the pointer.  A
    nil raw pointer comes out as a slim object that is not nil, which the
    cast helper hands on without a warning, and on which the comparison
    panics, whatever it is compared with and on either side. *)
Theorem wrapping_conversions_nil :
  (ObjToV1NetworkPolicy (ConvertToNetworkPolicy (Raw_NetworkPolicy None))
   = (Some (mkNetworkPolicy None), []) ∧
   ∀ np, EqualV1NetworkPolicy (mkNetworkPolicy None) np = None ∧
         EqualV1NetworkPolicy np (mkNetworkPolicy None) = None) ∧
  (ObjToV1Endpoints (ConvertToK8sEndpoints (Raw_Endpoints None))
   = (Some (mkEndpoints None), []) ∧
   ∀ ep, EqualV1Endpoints (mkEndpoints None) ep = None ∧
         EqualV1Endpoints ep (mkEndpoints None) = None) ∧
  (ObjToV1EndpointSlice (ConvertToK8sEndpointSlice (Raw_EndpointSlice None))
   = (Some (mkEndpointSlice None), []) ∧
   ∀ ep, EqualV1EndpointSlice (mkEndpointSlice None) ep = None ∧
         EqualV1EndpointSlice ep (mkEndpointSlice None) = None) ∧
  (ObjToSlimCNP (ConvertToCNPWithStatus (Raw_CNP None))
   = (Some (mkSlimCNP None), []) ∧
   ∀ cnp (h : heap), EqualV2CNP (mkSlimCNP None) cnp h = None ∧
                     EqualV2CNP cnp (mkSlimCNP None) h = None).
Proof.
  repeat split.
  - unfold EqualV1NetworkPolicy.
    destruct (NetworkPolicy np); reflexivity.
  - unfold EqualV1Endpoints. destruct (Endpoints ep); reflexivity.
  - unfold EqualV1EndpointSlice. destruct (EndpointSlice ep); reflexivity.
  - apply EqualV2CNP_None. right. reflexivity.
Qed.

(** ** From a conversion to a cast *)

(** X22.  The cast helper of a kind accepts what the conversion of the
    kind makes of a raw object, and logs nothing; the raw pointer is the
    one embedded in the slim object.  It does not look inside a deletion
    wrapper: whatever the payload, the converted wrapper is answered with
    nil. *)
Theorem cast_after_conversion (key : string) (payload : obj) :
  (∀ p, ObjToV1NetworkPolicy (ConvertToNetworkPolicy (Raw_NetworkPolicy p))
        = (Some (mkNetworkPolicy p), [])) ∧
  (∀ p, ObjToV1Services (ConvertToK8sService (Raw_Service p))
        = (Some (mkService p), [])) ∧
  (∀ p, ObjToV1Endpoints (ConvertToK8sEndpoints (Raw_Endpoints p))
        = (Some (mkEndpoints p), [])) ∧
  (∀ p, ObjToV1EndpointSlice
          (ConvertToK8sEndpointSlice (Raw_EndpointSlice p))
        = (Some (mkEndpointSlice p), [])) ∧
  (∀ p, ObjToSlimCNP (ConvertToCNPWithStatus (Raw_CNP p))
        = (Some (mkSlimCNP p), [])) ∧
  fst (ObjToV1NetworkPolicy
         (ConvertToNetworkPolicy (DeletedFinalStateUnknown key payload)))
  = None ∧
  fst (ObjToV1Services
         (ConvertToK8sService (DeletedFinalStateUnknown key payload)))
  = None ∧
  fst (ObjToV1Endpoints
         (ConvertToK8sEndpoints (DeletedFinalStateUnknown key payload)))
  = None ∧
  fst (ObjToV1EndpointSlice
         (ConvertToK8sEndpointSlice (DeletedFinalStateUnknown key payload)))
  = None ∧
  fst (ObjToSlimCNP
         (ConvertToCNPWithStatus (DeletedFinalStateUnknown key payload)))
  = None.
Proof.
  repeat split; destruct payload; reflexivity.
Qed.

End ConversionProperties.

(** * Cilium nodes and endpoints *)

Section CiliumNodeProperties.
Context `{Payloads}.

(** X23.  [ConvertToCiliumNode] changes nothing: a node, a deletion
    wrapper around a node and any other value all come back as they were
    given, the rebuilt wrapper being equal to the one received. *)
Theorem ConvertToCiliumNode_identity (o : obj) : ConvertToCiliumNode o = o.
Proof.
  destruct o as [| | | | | | | | | | | | | | | | | | | key payload |];
    try reflexivity.
  destruct payload; reflexivity.
Qed.

End CiliumNodeProperties.

Section CiliumEndpointProperties.
Context `{EndpointPayloads}.

(** X24.  [ConvertToCiliumEndpoint] on an endpoint of the heap copies the
    metadata, the identity, the networking status and the named ports into
    the slim endpoint, and clears the source.  The encryption is not
    copied: the slim endpoint holds the address of the encryption field of
    the source, so that what is read through it after the call is the zero
    value, whatever the source held before.  A deletion wrapper around the
    endpoint gives the same slim endpoint and the same heap. *)
Theorem ConvertToCiliumEndpoint_encryption_cleared (l : loc)
  (σ : gmap loc cilium_v2_CiliumEndpoint) (e : cilium_v2_CiliumEndpoint)
  (key : string) :
  σ !! l = Some e →
  ∃ p σ',
    ConvertToCiliumEndpoint (Raw_CiliumEndpoint (Some l)) σ
    = Some (Slim_Endpoint (Some p), σ') ∧
    ConvertToCiliumEndpoint
      (Deleted_Endpoint key (Raw_CiliumEndpoint (Some l))) σ
    = Some (Deleted_Endpoint key (Slim_Endpoint (Some p)), σ') ∧
    tcep_TypeMeta p = cep_TypeMeta e ∧
    tcep_ObjectMeta p = cep_ObjectMeta e ∧
    Identity p = st_Identity (cep_Status e) ∧
    Networking p = st_Networking (cep_Status e) ∧
    tcep_NamedPorts p = st_NamedPorts (cep_Status e) ∧
    readEncryption σ (Encryption p) = Some (st_Encryption (cep_Status e)) ∧
    readEncryption σ' (Encryption p) = Some zeroEncryptionSpec ∧
    σ' !! l = Some zero_CiliumEndpoint ∧
    (∀ l', l' ≠ l → σ' !! l' = σ !! l').
Proof.
  intros He.
  unfold ConvertToCiliumEndpoint, slimOfCiliumEndpoint; simpl.
  rewrite He; simpl.
  eexists _, _. split; [reflexivity |]. split; [reflexivity |]. simpl.
  repeat (split; [reflexivity |]).
  unfold readEncryption; simpl. rewrite He, lookup_insert_eq; simpl.
  repeat (split; [reflexivity |]).
  intros l' Hne. apply lookup_insert_ne. congruence.
Qed.

(** X25.  [ConvertToCiliumEndpoint] hands on what it does not recognise,
    heap untouched: a slim endpoint, any other value, and a deletion
    wrapper whose payload is not an endpoint of the API.  On a nil pointer
    to an endpoint, alone or wrapped, it panics. *)
Theorem ConvertToCiliumEndpoint_other (o : endpointObj) (key : string)
  (σ : gmap loc cilium_v2_CiliumEndpoint) :
  ((∀ p, o ≠ Raw_CiliumEndpoint p) →
   (∀ k payload, o ≠ Deleted_Endpoint k payload) →
   ConvertToCiliumEndpoint o σ = Some (o, σ)) ∧
  ((∀ p, o ≠ Raw_CiliumEndpoint p) →
   ConvertToCiliumEndpoint (Deleted_Endpoint key o) σ
   = Some (Deleted_Endpoint key o, σ)) ∧
  ConvertToCiliumEndpoint (Raw_CiliumEndpoint None) σ = None ∧
  ConvertToCiliumEndpoint (Deleted_Endpoint key (Raw_CiliumEndpoint None)) σ
  = None.
Proof.
  repeat split.
  - intros Hraw Hdel. destruct o; try reflexivity.
    + exfalso. eapply Hraw. reflexivity.
    + exfalso. eapply Hdel. reflexivity.
  - intros Hraw. destruct o; try reflexivity.
    exfalso. eapply Hraw. reflexivity.
Qed.

End CiliumEndpointProperties.

(** * The client set *)

Section ClientsetProperties.
Context `{ClientLibraries}.
Variable kubernetes_NewForConfig : Config → kubernetes_Clientset + error.
Variable slim_corev1_NewForConfig : Config → slim_CoreV1Client + error.

Abbreviation NewForConfig' :=
  (NewForConfig kubernetes_NewForConfig slim_corev1_NewForConfig).

(** X26.  [NewForConfig] panics on a nil config and on no other.  It
    returns either a client set and no error, or no client set and an
    error, never both and never neither; a client set it returns has both
    of its clients. *)
Theorem NewForConfig_result (c : option Config) :
  (NewForConfig' c = None ↔ c = None) ∧
  (∀ cs err, NewForConfig' c = Some (cs, err) →
     (cs = None ↔ err ≠ None) ∧
     (∀ v, cs = Some v → is_Some (cs_Clientset v) ∧ is_Some (CoreV1 v))).
Proof.
  unfold NewForConfig. destruct c as [c|]; simpl.
  - split.
    + split; [| discriminate]. intros Hrun. exfalso.
      repeat match type of Hrun with
             | context [match ?x with _ => _ end] => destruct x
             end; discriminate.
    + intros cs err Hrun.
      repeat match type of Hrun with
             | context [match ?x with _ => _ end] => destruct x
             end;
        injection Hrun as <- <-;
        try (split; [split; [discriminate | reflexivity] | discriminate]).
      split; [split; [discriminate | intros Hn; contradiction] |].
      intros v [= <-]. simpl. split; eexists; reflexivity.
  - split; [split; reflexivity | discriminate].
Qed.

(** X27.  The burst rule of [NewForConfig].  Without a rate limiter and
    with a positive QPS, a burst of zero or less is refused with an error
    before any client is built, and a positive burst makes both clients
    be built from the config completed with one token bucket limiter of
    that QPS and burst.  With a rate limiter, or a QPS that is not
    positive, the burst is not examined and the clients are built from
    the config as given.  The core client of the result is the one made
    from the slim client. *)
Theorem NewForConfig_burst_rule (c : Config) :
  (cfg_RateLimiter c = None → positive_float32 (QPS c) = true →
   (Burst c ≤ 0)%Z →
   NewForConfig' (Some c)
   = Some (None,
           Some (Errorf "burst is required to be greater than 0 when RateLimiter is not set and QPS is set to greater than 0"))) ∧
  (∀ c' k s,
     (cfg_RateLimiter c = None ∧ positive_float32 (QPS c) = true ∧
      (0 < Burst c)%Z ∧
      c' = mkConfig (Some (NewTokenBucketRateLimiter (QPS c) (Burst c)))
                    (QPS c) (Burst c) (cfg_rest c)) ∨
     ((cfg_RateLimiter c ≠ None ∨ positive_float32 (QPS c) = false) ∧
      c' = c) →
     kubernetes_NewForConfig c' = inl k →
     slim_corev1_NewForConfig c' = inl s →
     ∃ v, NewForConfig' (Some c) = Some (Some v, None) ∧
          cs_Clientset v = Some k ∧
          CoreV1 v = Some (corev1_New (RESTClient s))) ∧
  (∀ c' e,
     (cfg_RateLimiter c = None ∧ positive_float32 (QPS c) = true ∧
      (0 < Burst c)%Z ∧
      c' = mkConfig (Some (NewTokenBucketRateLimiter (QPS c) (Burst c)))
                    (QPS c) (Burst c) (cfg_rest c)) ∨
     ((cfg_RateLimiter c ≠ None ∨ positive_float32 (QPS c) = false) ∧
      c' = c) →
     kubernetes_NewForConfig c' = inr e →
     NewForConfig' (Some c) = Some (None, Some e)).
Proof.
  unfold NewForConfig; simpl. split; [| split].
  - intros -> -> Hb; simpl.
    rewrite (proj2 (Z.leb_le _ _) Hb). reflexivity.
  - intros c' k s Hcase Hk Hs.
    destruct Hcase as [(-> & -> & Hb & ->)|([Hl|Hq] & ->)]; simpl.
    + rewrite (proj2 (Z.leb_gt _ _) Hb). rewrite Hk, Hs.
      eexists. repeat split.
    + destruct (cfg_RateLimiter c); [| contradiction]; simpl.
      rewrite Hk, Hs. eexists. repeat split.
    + rewrite Hq, andb_false_r. rewrite Hk, Hs. eexists. repeat split.
  - intros c' e Hcase Hk.
    destruct Hcase as [(-> & -> & Hb & ->)|([Hl|Hq] & ->)]; simpl.
    + rewrite (proj2 (Z.leb_gt _ _) Hb). rewrite Hk. reflexivity.
    + destruct (cfg_RateLimiter c); [| contradiction]; simpl.
      rewrite Hk. reflexivity.
    + rewrite Hq, andb_false_r. rewrite Hk. reflexivity.
Qed.

End ClientsetProperties.

(** * Worked instances

    The properties above, applied to the sample objects. *)

Section Instances.
#[local] Existing Instance samplePayloads.

Lemma AnnotationsEqual_iff_witness :
  AnnotationsEqual (Some ["proxy"]) None (Some {["proxy" := EmptyString]})
  = true ∧
  AnnotationsEqual (Some ["proxy"]) (Some {["proxy" := EmptyString]}) None
  = true.
Proof.
  apply (proj2 (proj2 (AnnotationsEqual_iff None None
                         (Some {["proxy" := EmptyString]}))) "proxy");
    vm_compute; reflexivity.
Defined.

Lemma ObjTo_mismatch_nil_witness :
  ObjToV1NetworkPolicy (Other "int")
  = (None, [mkEntry WarnLevel (Other "int")
                    "Ignoring invalid k8s v1 NetworkPolicy"]) ∧
  ObjToCiliumEndpoint (DeletedFinalStateUnknown "ns/name" Nil)
  = (None, [mkEntry WarnLevel (DeletedFinalStateUnknown "ns/name" Nil)
                    "Ignoring invalid CiliumEndpoint"]).
Proof.
  split.
  - apply (ObjTo_mismatch_nil (Other "int")). intros p. discriminate.
  - apply (ObjTo_mismatch_nil (DeletedFinalStateUnknown "ns/name" Nil)).
    intros p. discriminate.
Defined.

Lemma ConvertToNetworkPolicy_tombstone_witness :
  ConvertToNetworkPolicy
    (DeletedFinalStateUnknown "ns/name"
       (Raw_NetworkPolicy (Some sampleK8sNetworkPolicy)))
  = DeletedFinalStateUnknown "ns/name"
      (Slim_NetworkPolicy
         (Some (mkNetworkPolicy (Some sampleK8sNetworkPolicy)))) ∧
  ConvertToNetworkPolicy (DeletedFinalStateUnknown "ns/name" (Other "string"))
  = DeletedFinalStateUnknown "ns/name" (Other "string").
Proof.
  split.
  - apply (proj1 (ConvertToNetworkPolicy_tombstone "ns/name"
                    (Raw_NetworkPolicy (Some sampleK8sNetworkPolicy)))
                 (Some sampleK8sNetworkPolicy)).
    reflexivity.
  - apply (proj2 (ConvertToNetworkPolicy_tombstone "ns/name"
                    (Other "string"))).
    intros netPol. discriminate.
Defined.

Lemma EqualV1Pod_env_and_PodIP_witness :
  EqualV1Pod sampleHeap
    (samplePod (Some [mkEnvVar "MODE" "blue"]) "10.0.0.7")
    (samplePod (Some [mkEnvVar "MODE" "green"]) "10.0.0.7") = Some true ∧
  EqualV1Pod sampleHeap
    (samplePod None "10.0.0.7") (samplePod None "10.0.0.8") = Some false.
Proof.
  split.
  - apply (proj1 (EqualV1Pod_env_and_PodIP sampleHeap _ _));
      try reflexivity.
    simpl. constructor; [| constructor]. repeat split.
  - apply (proj2 (EqualV1Pod_env_and_PodIP sampleHeap _ _)).
    simpl. discriminate.
Defined.

Lemma EqualPodIPs_nil_not_empty_witness :
  EqualPodIPs None (Some []) = Some false ∧
  EqualV1Pod sampleHeap (withPodIPs None (samplePod None "10.0.0.7"))
             (withPodIPs (Some []) (samplePod None "10.0.0.7")) = Some false.
Proof.
  destruct EqualPodIPs_nil_not_empty as (Hips & _ & _ & Hpods & _).
  split.
  - apply Hips. simpl. discriminate.
  - apply Hpods. simpl. discriminate.
Defined.

Lemma EqualV1Node_taints_by_position_witness :
  EqualV1Node sampleHeap (sampleSlimNode (Some [sampleTaintA; sampleTaintB]))
              (sampleSlimNode (Some [sampleTaintA; sampleTaintB]))
  = Some true ∧
  (len (Some [sampleTaintA; sampleTaintB])
   = len (Some [sampleTaintA; sampleTaintB]) ∧
   ∀ i taint1 taint2,
     [sampleTaintA; sampleTaintB] !! i = Some taint1 →
     [sampleTaintA; sampleTaintB] !! i = Some taint2 →
     MatchTaint taint1 taint2 = true ∧ Value taint1 = Value taint2 ∧
     metav1_Time_Equal (TimeAdded taint1) (TimeAdded taint2) = true) ∧
  EqualV1Node sampleHeap (sampleSlimNode (Some [sampleTaintA; sampleTaintB]))
              (sampleSlimNode (Some [sampleTaintB; sampleTaintA]))
  = Some false.
Proof.
  split; [vm_compute; reflexivity |]. split.
  - apply (proj1 (proj2 (EqualV1Node_taints_by_position sampleHeap
             (sampleSlimNode (Some [sampleTaintA; sampleTaintB]))
             (sampleSlimNode (Some [sampleTaintA; sampleTaintB]))))).
    vm_compute. reflexivity.
  - apply (proj2 (proj2 (EqualV1Node_taints_by_position sampleHeap
             (sampleSlimNode None) (sampleSlimNode None)))
             "NoSchedule" (Some (mkTime 0 "UTC")) (Some (mkTime 60 "UTC"))).
Defined.

Lemma EqualV2CNP_restores_annotations_witness :
  ∃ result,
    EqualV2CNP (mkSlimCNP (Some 1%positive)) (mkSlimCNP (Some 2%positive))
               sampleHeap = Some (result, sampleHeap).
Proof.
  apply (proj2 (EqualV2CNP_restores_annotations
                  (mkSlimCNP (Some 1%positive)) (mkSlimCNP (Some 2%positive))
                  sampleHeap)); vm_compute; reflexivity.
Defined.



Lemma Equal_Normalize_reflexive_witness :
  validRaw KCCNP (Raw_CCNP (Some 1%positive)) sampleHeap = true ∧
  ∃ N h', Normalize KCCNP (Raw_CCNP (Some 1%positive)) sampleHeap
          = Some (N, h') ∧
          Equal sampleParseService KCCNP tt N N h' = Some (true, h').
Proof.
  split; [vm_compute; reflexivity |].
  apply (Equal_Normalize_reflexive sampleParseService KCCNP tt
           (Raw_CCNP (Some 1%positive)) sampleHeap).
  vm_compute. reflexivity.
Defined.

(** Reflexivity is about one normalised object compared with itself.  A
    normaliser that clears its source gives something else when it is run
    again on the same raw object: the second node is the zero node, and
    the two do not compare equal. *)
Remark ConvertToNode_twice :
  ∃ N1 h1 N2 h2,
    ConvertToNode (Raw_Node (Some 1%positive)) sampleHeap = Some (N1, h1) ∧
    ConvertToNode (Raw_Node (Some 1%positive)) h1 = Some (N2, h2) ∧
    N2 = Slim_Node (Some (mkNode zeroTypeMeta zeroObjectMeta None
                                 EmptyString None None)) ∧
    Equal sampleParseService KNode tt N1 N2 h2 = Some (false, h2).
Proof.
  eexists _, _, _, _.
  split; [vm_compute; reflexivity |].
  split; [vm_compute; reflexivity |].
  split; vm_compute; reflexivity.
Qed.

(** C5, as stated, fails: on the sample heap the cluster-wide policy at
    location 1, with its embedded policy at location 3 and the status
    ["enforcing"], is still there after [ConvertToCCNPWithStatus], not the
    zero value. *)
Lemma ConvertToCCNPWithStatus_source_not_zeroed :
  ¬ (∀ (l : loc) (h : heap) N h',
       validRaw KCCNPWithStatus (Raw_CCNP (Some l)) h = true →
       ConvertToCCNPWithStatus (Raw_CCNP (Some l)) h = Some (N, h') →
       ccnps h' !! l = Some zeroCiliumClusterwideNetworkPolicy).
Proof.
  intros Hclaim.
  epose proof (Hclaim 1%positive sampleHeap _ _ eq_refl eq_refl) as Hzero.
  vm_compute in Hzero. discriminate Hzero.
Qed.

Lemma ConvertToCCNPWithStatus_keeps_source_witness :
  (∃ h', ConvertToCCNPWithStatus (Raw_CCNP (Some 1%positive)) sampleHeap
         = Some (Slim_CNP (Some (mkSlimCNP (Some 3%positive))), h') ∧
         ccnps h' !! 1%positive = Some sampleCCNP ∧
         cnps h' !! 3%positive
         = Some (mkCNP (cnp_TypeMeta sampleCNP3) (cnp_ObjectMeta sampleCNP3)
                       (cnp_Spec sampleCNP3) (cnp_Specs sampleCNP3)
                       (ccnp_Status sampleCCNP)) ∧
         maps h' = maps sampleHeap) ∧
  (∃ N h', ConvertToCCNP (Raw_CCNP (Some 1%positive)) sampleHeap
           = Some (N, h') ∧
           ccnps h' !! 1%positive = Some zeroCiliumClusterwideNetworkPolicy).
Proof.
  apply (ConvertToCCNPWithStatus_keeps_source 1%positive sampleHeap
           sampleCCNP 3%positive sampleCNP3); vm_compute; reflexivity.
Defined.

End Instances.

(** * Worked instances of the further properties *)

Section MoreInstances.
#[local] Existing Instance samplePayloads.
#[local] Existing Instance sampleEndpointPayloads.
#[local] Existing Instance sampleClientLibraries.

Lemma EqualV1PodContainers_true_iff_witness :
  EqualV1PodContainers (sampleContainer None) sampleContainerTwoMounts
  = Some false.
Proof.
  apply (proj2 (EqualV1PodContainers_true_iff (sampleContainer None)
                  sampleContainerTwoMounts)).
  simpl. discriminate.
Defined.

Lemma EqualV1Pod_true_iff_witness :
  EqualV1Pod sampleHeap
    (samplePod (Some [mkEnvVar "MODE" "blue"]) "10.0.0.7")
    (samplePod None "10.0.0.7") = Some true.
Proof.
  apply (proj2 (EqualV1Pod_true_iff sampleHeap _ _)).
  repeat (split; [vm_compute; reflexivity |]).
  simpl. constructor; [| constructor]. repeat split.
Defined.

Lemma EqualV1Node_true_iff_witness :
  EqualV1Node sampleHeap
    (sampleSlimNode (Some [sampleTaintA]))
    (sampleSlimNode (Some [relocate "CET" sampleTaintA])) = Some true.
Proof.
  apply (proj2 (EqualV1Node_true_iff sampleHeap _ _)).
  split; [reflexivity |]. split; [intros an _; reflexivity |].
  simpl. constructor; [| constructor]. repeat split.
Defined.

Lemma EqualV2CNP_as_pure_witness :
  EqualV2CNP (mkSlimCNP (Some 1%positive)) (mkSlimCNP (Some 2%positive))
             sampleHeap = Some (true, sampleHeap) ∧
  EqualV2CNP (mkSlimCNP None) (mkSlimCNP (Some 2%positive)) sampleHeap = None.
Proof.
  split.
  - rewrite (proj1 (EqualV2CNP_as_pure (mkSlimCNP (Some 1%positive))
                      (mkSlimCNP (Some 2%positive)) sampleHeap)
               1%positive 2%positive sampleCNP1 sampleCNP2)
      by (vm_compute; reflexivity).
    vm_compute. reflexivity.
  - apply (proj2 (EqualV2CNP_as_pure (mkSlimCNP None)
                    (mkSlimCNP (Some 2%positive)) sampleHeap)).
    left. reflexivity.
Defined.

Lemma wrapped_comparisons_witness :
  EqualV1NetworkPolicy (mkNetworkPolicy (Some sampleK8sNetworkPolicy))
                       (mkNetworkPolicy (Some sampleK8sNetworkPolicy))
  = Some true ∧
  EqualV1NetworkPolicy (mkNetworkPolicy None)
                       (mkNetworkPolicy (Some sampleK8sNetworkPolicy))
  = None.
Proof.
  destruct wrapped_comparisons as (Hnp & _ & _).
  split.
  - apply (proj2 (Hnp _ _) sampleK8sNetworkPolicy sampleK8sNetworkPolicy);
      try reflexivity.
    repeat split.
  - apply (proj1 (Hnp _ _)). left. reflexivity.
Defined.

Lemma AnnotationsEqual_equivalence_witness :
  AnnotationsEqual (Some ["proxy"]) None (Some ∅) = true.
Proof.
  destruct (AnnotationsEqual_equivalence (Some ["proxy"]) None
              (Some {["proxy" := EmptyString]}) (Some ∅))
    as (_ & _ & Htrans & _).
  apply Htrans; vm_compute; reflexivity.
Defined.

Lemma EqualV1Services_gates_witness :
  EqualV1Services sampleParseService sampleHeap
    (sampleService (Some 1%positive)) (sampleService (Some 3%positive)) tt
  = Some false.
Proof.
  destruct (EqualV1Services_gates sampleParseService sampleHeap
              (sampleService (Some 1%positive))
              (sampleService (Some 3%positive)) tt) as (_ & Hgate).
  edestruct Hgate as (Hann & _); [reflexivity | reflexivity |].
  apply Hann. vm_compute. reflexivity.
Defined.

Lemma wrapping_conversions_tombstone_witness :
  ConvertToK8sService (DeletedFinalStateUnknown "ns/name" (Other "string"))
  = DeletedFinalStateUnknown "ns/name" (Other "string").
Proof.
  destruct (wrapping_conversions_tombstone "ns/name" (Other "string"))
    as ((_ & Hsvc) & _).
  apply Hsvc. intros svc. discriminate.
Defined.

Lemma clearing_conversions_tombstone_witness :
  ConvertToNode (DeletedFinalStateUnknown "worker-1" Nil) sampleHeap
  = Some (DeletedFinalStateUnknown "worker-1" Nil, sampleHeap).
Proof.
  pose proof (clearing_conversions_tombstone "worker-1" Nil sampleHeap)
    as Hall.
  cbv zeta in Hall. destruct Hall as (_ & _ & _ & (_ & Hnode) & _).
  apply Hnode. intros p. discriminate.
Defined.

Lemma conversions_idempotent_witness :
  match ConvertToNode (Raw_Node (Some 1%positive)) sampleHeap with
  | Some (N, h') => ConvertToNode N h' = Some (N, h')
  | None => False
  end.
Proof.
  destruct (ConvertToNode (Raw_Node (Some 1%positive)) sampleHeap)
    as [[N h']|] eqn:Hrun.
  - destruct conversions_idempotent
      as (_ & _ & _ & _ & _ & _ & _ & _ & _ & Hnode & _).
    exact (Hnode _ _ _ _ Hrun).
  - vm_compute in Hrun. discriminate Hrun.
Defined.

Lemma conversions_keep_maps_witness :
  match ConvertToCCNP (Raw_CCNP (Some 1%positive)) sampleHeap with
  | Some (N, h') => maps h' = maps sampleHeap
  | None => False
  end.
Proof.
  destruct (ConvertToCCNP (Raw_CCNP (Some 1%positive)) sampleHeap)
    as [[N h']|] eqn:Hrun.
  - destruct (conversions_keep_maps (Raw_CCNP (Some 1%positive)) sampleHeap
                N h') as (_ & _ & Hccnp & _).
    exact (Hccnp Hrun).
  - vm_compute in Hrun. discriminate Hrun.
Defined.

Lemma ConvertToNode_extracts_and_clears_witness :
  ∃ h', ConvertToNode (Raw_Node (Some 1%positive)) sampleHeap
        = Some (Slim_Node
                  (Some (mkNode (mkTypeMeta "Node" "v1")
                           (mkObjectMeta "worker-1" EmptyString None
                                         (Some 3%positive))
                           (Some [mkNodeAddress "InternalIP" "192.0.2.1"])
                           "10.0.0.0/24" (Some ["10.0.0.0/24"])
                           (Some [sampleTaintA; sampleTaintB]))),
                h') ∧
        nodes h' !! 1%positive = Some zero_v1_Node.
Proof.
  destruct (ConvertToNode_extracts_and_clears 1%positive sampleHeap
              sampleNode) as (h' & Hrun & Hzero & _).
  - vm_compute. reflexivity.
  - exists h'. split; [exact Hrun | exact Hzero].
Defined.

Lemma ConvertToNamespace_extracts_and_clears_witness :
  ∃ h', ConvertToNamespace (Raw_Namespace (Some 1%positive)) sampleHeap
        = Some (Slim_Namespace
                  (Some (mkNamespace (mkTypeMeta "Namespace" "v1")
                           (mkObjectMeta "default" EmptyString
                                         (Some 3%positive) None))), h') ∧
        namespaces h' !! 1%positive = Some zero_v1_Namespace.
Proof.
  edestruct (ConvertToNamespace_extracts_and_clears 1%positive sampleHeap)
    as (h' & Hrun & Hzero & _).
  - vm_compute. reflexivity.
  - exists h'. split; [exact Hrun | exact Hzero].
Defined.

Lemma ConvertToCNP_copies_and_clears_witness :
  ∃ n h', ConvertToCNP (Raw_CNP (Some 2%positive)) sampleHeap
          = Some (Slim_CNP (Some (mkSlimCNP (Some n))), h') ∧
          cnps h' !! n
          = Some (mkCNP (cnp_TypeMeta sampleCNP2) (cnp_ObjectMeta sampleCNP2)
                        (cnp_Spec sampleCNP2) (cnp_Specs sampleCNP2) []) ∧
          cnps h' !! 2%positive = Some zeroCiliumNetworkPolicy.
Proof.
  destruct (ConvertToCNP_copies_and_clears 2%positive sampleHeap sampleCNP2)
    as (n & h' & Hrun & _ & Hnew & Hzero & _).
  - vm_compute. reflexivity.
  - exists n, h'. split; [exact Hrun |]. split; [exact Hnew | exact Hzero].
Defined.

Lemma ConvertToCCNP_copies_and_clears_witness :
  ∃ n h', ConvertToCCNP (Raw_CCNP (Some 1%positive)) sampleHeap
          = Some (Slim_CNP (Some (mkSlimCNP (Some n))), h') ∧
          cnps h' !! n
          = Some (mkCNP (cnp_TypeMeta sampleCNP3) (cnp_ObjectMeta sampleCNP3)
                        (cnp_Spec sampleCNP3) (cnp_Specs sampleCNP3) []) ∧
          cnps h' !! 3%positive = Some sampleCNP3 ∧
          ccnps h' !! 1%positive = Some zeroCiliumClusterwideNetworkPolicy.
Proof.
  destruct (ConvertToCCNP_copies_and_clears 1%positive sampleHeap sampleCCNP
              3%positive sampleCNP3)
    as (n & h' & Hrun & _ & Hnew & _ & Hkept & Hzero & _);
    try (vm_compute; reflexivity).
  exists n, h'. split; [exact Hrun |]. split; [exact Hnew |].
  split; [exact Hkept | exact Hzero].
Defined.

Lemma clearing_conversions_nil_witness :
  ConvertToCCNPWithStatus (Raw_CCNP (Some 1%positive))
    (set_ccnps (<[1%positive := zeroCiliumClusterwideNetworkPolicy]> ∅)
               sampleHeap) = None.
Proof.
  destruct (clearing_conversions_nil "key"
              (set_ccnps
                 (<[1%positive := zeroCiliumClusterwideNetworkPolicy]> ∅)
                 sampleHeap))
    as (_ & _ & _ & _ & _ & _ & _ & _ & _ & _ & Hnil).
  apply (Hnil 1%positive zeroCiliumClusterwideNetworkPolicy);
    vm_compute; reflexivity.
Defined.

Lemma ConvertToCiliumEndpoint_encryption_cleared_witness :
  readEncryption sampleEndpoints (Some 1%positive) = Some 3%Z ∧
  ∃ p σ',
    ConvertToCiliumEndpoint (Raw_CiliumEndpoint (Some 1%positive))
                            sampleEndpoints
    = Some (Slim_Endpoint (Some p), σ') ∧
    Identity p = Some 4711%Z ∧
    readEncryption σ' (Encryption p) = Some 0%Z.
Proof.
  split; [vm_compute; reflexivity |].
  destruct (ConvertToCiliumEndpoint_encryption_cleared 1%positive
              sampleEndpoints sampleEndpoint "default/app-0")
    as (p & σ' & Hrun & _ & _ & _ & Hid & _ & _ & _ & Henc & _).
  - vm_compute. reflexivity.
  - exists p, σ'. split; [exact Hrun |]. split; [exact Hid | exact Henc].
Defined.

Lemma ConvertToCiliumEndpoint_other_witness :
  ConvertToCiliumEndpoint (Other_Endpoint "string") sampleEndpoints
  = Some (Other_Endpoint "string", sampleEndpoints) ∧
  ConvertToCiliumEndpoint
    (Deleted_Endpoint "default/app-0" (Slim_Endpoint None)) sampleEndpoints
  = Some (Deleted_Endpoint "default/app-0" (Slim_Endpoint None),
          sampleEndpoints).
Proof.
  split.
  - apply (proj1 (ConvertToCiliumEndpoint_other (Other_Endpoint "string")
                    "key" sampleEndpoints)).
    + intros p. discriminate.
    + intros k payload. discriminate.
  - apply (proj1 (proj2 (ConvertToCiliumEndpoint_other (Slim_Endpoint None)
                           "default/app-0" sampleEndpoints))).
    intros p. discriminate.
Defined.

Lemma NewForConfig_result_witness :
  NewForConfig sampleKubernetesNewForConfig sampleSlimNewForConfig
    (Some (sampleConfig None 0 0))
  = Some (None, Some sampleLibraryError) ∧
  ((None : option Clientset) = None ↔ Some sampleLibraryError ≠ None).
Proof.
  split; [vm_compute; reflexivity |].
  apply (proj2 (NewForConfig_result sampleKubernetesNewForConfig
                  sampleSlimNewForConfig
                  (Some (sampleConfig None 0 0)))
               None (Some sampleLibraryError)).
  vm_compute. reflexivity.
Defined.

Lemma NewForConfig_burst_rule_witness :
  NewForConfig sampleKubernetesNewForConfig sampleSlimNewForConfig
    (Some (sampleConfig None 5 0))
  = Some (None,
          Some (Errorf "burst is required to be greater than 0 when RateLimiter is not set and QPS is set to greater than 0")) ∧
  ∃ v, NewForConfig sampleKubernetesNewForConfig sampleSlimNewForConfig
         (Some (sampleConfig None 5 10)) = Some (Some v, None) ∧
       cs_Clientset v = Some "cluster" ∧ CoreV1 v = Some "cluster".
Proof.
  split.
  - apply (proj1 (NewForConfig_burst_rule sampleKubernetesNewForConfig
                    sampleSlimNewForConfig
                    (sampleConfig None 5 0)));
      try reflexivity; simpl; lia.
  - apply (proj1 (proj2 (NewForConfig_burst_rule sampleKubernetesNewForConfig
                           sampleSlimNewForConfig
                           (sampleConfig None 5 10)))
                 (sampleConfig (Some (5%Z, 10%Z)) 5 10)
                 "cluster" "cluster"); try reflexivity.
    left. repeat split.
Defined.

End MoreInstances.
